(** * Verification of the Google-Drive sheet logger (package [gdrive])

    A shallow embedding of [internal/gdrive/util.go]: the column codec
    ([columnToLetter], [letterToColumn]), the header write
    ([updateSheetHead]), the find-or-create resolution ([getSheet]) and the
    public entry point ([LogRow]), followed by the properties proved of
    them. *)

From Stdlib Require Import ZArith String Ascii List Lia DecimalString.
From stdpp Require Import base gmap strings list.

Local Open Scope string_scope.
Local Open Scope Z_scope.

(** ** Go's [int]: 64-bit two's complement *)

Module GoInt.

Definition int_min : Z := -9223372036854775808.
Definition int_max : Z := 9223372036854775807.

Definition is_int (z : Z) : Prop := int_min <= z <= int_max.

(** Reduction of a mathematical integer to the 64-bit signed range. *)
Definition wrap (z : Z) : Z :=
  (z + 9223372036854775808) mod 18446744073709551616 - 9223372036854775808.

Definition add (a b : Z) : Z := wrap (a + b).
Definition sub (a b : Z) : Z := wrap (a - b).
Definition mul (a b : Z) : Z := wrap (a * b).
(** Go's [/] and [%] truncate toward zero. *)
Definition quo (a b : Z) : Z := wrap (Z.quot a b).
Definition rem (a b : Z) : Z := Z.rem a b.

End GoInt.

(** ** Go strings: byte sequences *)

Module GoString.

Definition byte_of (z : Z) : ascii := ascii_of_N (Z.to_N z).
Definition int_of_byte (c : ascii) : Z := Z.of_N (N_of_ascii c).

Definition bytes (l : list Z) : string :=
  fold_right (fun b s => String (byte_of b) s) EmptyString l.

(** [string(r)] for an integer [r]: the UTF-8 encoding of the rune [r],
    and of U+FFFD when [r] is not a valid code point. *)
Definition string_of_rune (r : Z) : string :=
  if (0 <=? r) && (r <? 128) then bytes [r]
  else if (128 <=? r) && (r <? 2048) then
    bytes [Z.lor 192 (Z.shiftr r 6); Z.lor 128 (Z.land r 63)]
  else if (r <? 0) || (1114111 <? r) || ((55296 <=? r) && (r <=? 57343)) then
    bytes [239; 191; 189]
  else if r <? 65536 then
    bytes [Z.lor 224 (Z.shiftr r 12);
           Z.lor 128 (Z.land (Z.shiftr r 6) 63);
           Z.lor 128 (Z.land r 63)]
  else
    bytes [Z.lor 240 (Z.shiftr r 18);
           Z.lor 128 (Z.land (Z.shiftr r 12) 63);
           Z.lor 128 (Z.land (Z.shiftr r 6) 63);
           Z.lor 128 (Z.land r 63)].

(** [strconv.Itoa] and the [%d] verb: signed decimal. *)
Definition Itoa (z : Z) : string := NilZero.string_of_int (Z.to_int z).

Definition len (s : string) : Z := Z.of_nat (String.length s).

End GoString.

(** ** Column codec *)

Module Codec.
Import GoInt GoString.

(** One pass of the body of the loop of [columnToLetter]. *)
Definition columnToLetter_temp (column : Z) : Z := rem (sub column 1) 26.
Definition columnToLetter_next (column : Z) : Z :=
  quo (sub (sub column (columnToLetter_temp column)) 1) 26.

(** The loop [for column > 0 { ... }] on the pair (column, letter); the
    number of passes is bounded by the binary length of [column]
    ([columnToLetter_loop_eq] below shows that the bound is never hit). *)
Fixpoint columnToLetter_iter (passes : nat) (column : Z) (letter : string)
  : string :=
  match passes with
  | O => letter
  | S passes' =>
      if 0 <? column then
        let temp := columnToLetter_temp column in
        columnToLetter_iter passes'
          (columnToLetter_next column)
          (string_of_rune (add temp 65) +:+ letter)
      else letter
  end.

Definition columnToLetter_passes (column : Z) : nat :=
  S (Z.to_nat (Z.log2 column)).

Definition columnToLetter_loop (column : Z) (letter : string) : string :=
  columnToLetter_iter (columnToLetter_passes column) column letter.

Definition columnToLetter (column : Z) : string :=
  columnToLetter_loop column "".

(** [letterToColumn] raises 26 to a power in floating point,
    [int(math.Pow(26, float64(k)))]. The floating-point library is not
    part of this package: its result at exponent [k] is the parameter
    [pow26 k], and [Pow26_exact] records the one fact used about it,
    that the powers of 26 below [2^63] come out exact. *)
Definition Pow26_exact (pow26 : Z -> Z) : Prop :=
  forall k, 0 <= k <= 13 -> pow26 k = 26 ^ k.

Section LetterToColumn.
Variable pow26 : Z -> Z.

(** The loop [for i := 0; i < length; i++]: [rest] is [letter[i:]], so
    its head is [letter[i]]. *)
Fixpoint letterToColumn_loop (length : Z) (rest : string) (i column : Z)
  : Z :=
  match rest with
  | EmptyString => column
  | String b rest' =>
      letterToColumn_loop length rest' (add i 1)
        (add column
           (mul (sub (int_of_byte b) 64) (pow26 (sub (sub length i) 1))))
  end.

Definition letterToColumn (letter : string) : Z :=
  let column := 0 in
  let length := len letter in
  letterToColumn_loop length letter 0 column.
End LetterToColumn.

End Codec.

(** ** The services the package talks to *)

Module Api.

(** A value of type [interface{}], as far as rows and cells hold them. *)
Inductive iface : Type :=
| IString (s : string)
| IInt (n : Z)
| IBool (b : bool)
| INil.

(** [drive.File], [drive.FileList], [sheets.Spreadsheet] and
    [sheets.ValueRange], with the fields the package reads or sets. *)
Record File := mkFile {
  Id : string;
  Name : string;
  MimeType : string;
  Parents : list string }.

Record FileList := mkFileList { Files : list File }.

Record Spreadsheet := mkSpreadsheet {
  SpreadsheetId : string;
  SpreadsheetUrl : string }.

Record ValueRange := mkValueRange { Values : list (list iface) }.

(** Go's [error]: what a service call reports, or a message built with
    [fmt.Errorf]. *)
Inductive error : Type :=
| ApiError (code : Z) (message : string)
| ErrorString (message : string).

(** A row handed to the logger: [map[string][]interface{}]. *)
Abbreviation Row := (gmap string (list iface)).

(** One request sent to a remote service ([... .Do()]). *)
Inductive call : Type :=
| DriveFilesList (q : string)
| DriveFilesCreate (file : File)
| SheetsValuesUpdate (spreadsheetId range : string)
    (valueRange : ValueRange) (valueInputOption : string)
| SheetsGet (spreadsheetId : string).

(** Everything outside the package. Each answer may depend on all the
    requests sent so far, so a world is an arbitrary, possibly stateful,
    pair of services; [mapRange] is the order in which the runtime's
    [for k := range m] yields the keys of [m] at that moment. *)
Record World := mkWorld {
  filesListDo : list call -> string -> FileList + error;
  filesCreateDo : list call -> File -> File + error;
  valuesUpdateDo :
    list call -> string -> string -> ValueRange -> string -> unit + error;
  spreadsheetsGetDo : list call -> string -> Spreadsheet + error;
  mapRange : list call -> Row -> list string }.

(** [range] yields every key of the map once, in an order of its own. *)
Definition mapRange_ok (W : World) : Prop :=
  forall (log : list call) (m : Row), mapRange W log m ≡ₚ elements (dom m).

Definition is_DriveFilesCreate (c : call) : bool :=
  match c with DriveFilesCreate _ => true | _ => false end.
Definition is_DriveFilesList (c : call) : bool :=
  match c with DriveFilesList _ => true | _ => false end.
Definition is_SheetsValuesUpdate (c : call) : bool :=
  match c with SheetsValuesUpdate _ _ _ _ => true | _ => false end.

Definition count (p : call -> bool) (l : list call) : nat :=
  length (List.filter p l).

End Api.

(** ** Package [gdrive] *)

Module Gdrive.
Import GoInt GoString Codec Api.

(** [type GDrive struct]: the two service handles live in the [World];
    a [*sheets.Spreadsheet] may be [nil]. *)
Record GDrive := mkGDrive {
  folderID : string;
  sheets : gmap string (option Spreadsheet) }.

(** The state a method runs in: the receiver and the requests sent so
    far, oldest first. *)
Record State := mkState {
  drive : GDrive;
  log : list call }.

Definition M (A : Type) : Type := State -> A * State.

Definition ret {A} (a : A) : M A := fun s => (a, s).
Definition bind {A B} (m : M A) (k : A -> M B) : M B :=
  fun s => let (a, s') := m s in k a s'.

Notation "x <- m ;; k" := (bind m (fun x => k))
  (at level 100, m at next level, right associativity).

Definition receiver : M GDrive := fun s => (drive s, s).

(** Send [c]; the answer is the world's, given what was sent before. *)
Definition perform {A} (c : call) (answer : list call -> A) : M A :=
  fun s => (answer (log s), mkState (drive s) (log s ++ [c])).

Section Methods.
Variable W : World.

Definition filesList (q : string) : M (FileList + error) :=
  perform (DriveFilesList q) (fun l => filesListDo W l q).
Definition filesCreate (file : File) : M (File + error) :=
  perform (DriveFilesCreate file) (fun l => filesCreateDo W l file).
Definition valuesUpdate (spreadsheetId range : string)
    (valueRange : ValueRange) (valueInputOption : string)
  : M (unit + error) :=
  perform (SheetsValuesUpdate spreadsheetId range valueRange valueInputOption)
    (fun l => valuesUpdateDo W l spreadsheetId range valueRange
                valueInputOption).
Definition spreadsheetsGet (spreadsheetId : string)
  : M (Spreadsheet + error) :=
  perform (SheetsGet spreadsheetId)
    (fun l => spreadsheetsGetDo W l spreadsheetId).
(** [for k := range data { keys = append(keys, k) }] *)
Definition rangeKeys (data : Row) : M (list iface) :=
  fun s => (map IString (mapRange W (log s) data), s).

Definition updateSheetHead (fileID title description : string)
    (data : Row) : M (option error) :=
  keys <- rangeKeys data ;;
  let values := [[IString description]; keys] in
  let valueRange := mkValueRange values in
  r <- valuesUpdate fileID
         ("A1:" +:+ columnToLetter (add 1 (Z.of_nat (length keys)))
                +:+ Itoa (Z.of_nat (length values)))
         valueRange "RAW" ;;
  match r with
  | inr err => ret (Some err)
  | inl _ => ret None
  end.

(** Returns the pair [(sheet, err)]; [None] stands for [nil] in both
    places. *)
Definition getSheet (title description : string) (data : Row)
  : M (option Spreadsheet * option error) :=
  gDrive <- receiver ;;
  match sheets gDrive !! title with
  | Some sheet => ret (sheet, None)
  | None =>
      r <- filesList (("name = '" +:+ title +:+ "'") +:+ " and" +:+
                      ("'" +:+ folderID gDrive +:+ "' in parents")) ;;
      match r with
      | inr err => ret (None, Some err)
      | inl files =>
          match Files files with
          | [] =>
              r <- filesCreate
                     {| Id := "";
                        Name := title;
                        MimeType := "application/vnd.google-apps.spreadsheet";
                        Parents := [folderID gDrive] |} ;;
              match r with
              | inr err => ret (None, Some err)
              | inl file =>
                  err <- updateSheetHead (Id file) title description data ;;
                  match err with
                  | Some err => ret (None, Some err)
                  | None =>
                      r <- spreadsheetsGet (Id file) ;;
                      match r with
                      | inr err => ret (None, Some err)
                      | inl sheet => ret (Some sheet, None)
                      end
                  end
              end
          | [file0] =>
              err <- updateSheetHead (Id file0) title description data ;;
              match err with
              | Some err => ret (None, Some err)
              | None =>
                  (* the error of this fetch is assigned and never read; a
                     failed [Do] hands back a nil handle *)
                  r <- spreadsheetsGet (Id file0) ;;
                  match r with
                  | inr _ => ret (None, None)
                  | inl sheet => ret (Some sheet, None)
                  end
              end
          | _ =>
              ret (None,
                   Some (ErrorString
                           ("Got " +:+ Itoa (Z.of_nat (length (Files files)))
                            +:+ " files with name " +:+ title
                            +:+ ", expected 1")))
          end
      end
  end.

Definition LogRow (title description : string) (row : Row)
  : M (option error) :=
  r <- getSheet title description row ;;
  match snd r with
  | Some err => ret (Some err)
  | None => ret None
  end.
End Methods.

(** The requests a computation sends when started in state [s]. *)
Definition sent {A} (m : M A) (s : State) : list call :=
  drop (length (log s)) (log (snd (m s))).

End Gdrive.

(** ** Vocabulary of the properties *)

Module Notions.
Import GoInt GoString Codec Api Gdrive.

(** [enough passes column]: [passes] passes of the loop of
    [columnToLetter] are as good as any larger number. *)
Definition enough (passes : nat) (column : Z) : Prop :=
  column <= 0 \/ (columnToLetter_passes column <= passes)%nat.

(** The positional value of a label, digit [A] = 1 ... [Z] = 26. *)
Fixpoint pval (s : string) : Z :=
  match s with
  | EmptyString => 0
  | String b rest => (int_of_byte b - 64) * 26 ^ len rest + pval rest
  end.

(** Every byte is one of [A]..[Z]. *)
Fixpoint upper (s : string) : Prop :=
  match s with
  | EmptyString => True
  | String b rest => 1 <= int_of_byte b - 64 <= 26 /\ upper rest
  end.

(** The query [getSheet] sends to list the files named [title] below
    the folder. *)
Definition listQuery (title folder : string) : string :=
  ("name = '" +:+ title +:+ "'") +:+ " and" +:+
  ("'" +:+ folder +:+ "' in parents").

(** An A1-style range,
    [<startColumnLetter><startRow>:<endColumnLetter><endRow>]. *)
Definition a1Range (startColumn : string) (startRow : Z)
    (endColumn : string) (endRow : Z) : string :=
  startColumn +:+ Itoa startRow +:+ ":" +:+ endColumn +:+ Itoa endRow.

(** The header write of a row whose keys were yielded as [ks]. *)
Definition headerCall (fileID description : string) (ks : list string)
  : call :=
  SheetsValuesUpdate fileID
    (a1Range "A" 1 (columnToLetter (add 1 (Z.of_nat (length ks)))) 2)
    (mkValueRange [[IString description]; map IString ks])
    "RAW".

(** What the world answers to that header write when it is sent after
    the requests [l]. *)
Definition headerAnswer (W : World) (l : list call)
    (fileID description : string) (ks : list string) : unit + error :=
  valuesUpdateDo W l fileID
    (a1Range "A" 1 (columnToLetter (add 1 (Z.of_nat (length ks)))) 2)
    (mkValueRange [[IString description]; map IString ks])
    "RAW".

Definition is_success {A} (r : A * option error) : Prop := snd r = None.

Definition ptr {A} (r : A + error) : option A :=
  match r with inl a => Some a | inr _ => None end.

(** The file [getSheet] asks the drive to create. *)
Definition newFile (title folder : string) : File :=
  {| Id := "";
     Name := title;
     MimeType := "application/vnd.google-apps.spreadsheet";
     Parents := [folder] |}.

End Notions.

(** ** Sample worlds and rows *)

Module Examples.
Import GoString Api Gdrive.

(** A world in which the folder lists [files] whatever the name asked
    for, every request succeeds, every fetch yields a handle of its own
    and [range] yields the keys in the order of the map's domain. *)
Definition steadyWorld (files : list File) : World :=
  {| filesListDo := fun _ _ => inl (mkFileList files);
     filesCreateDo := fun _ file =>
       inl (mkFile "new" (Name file) (MimeType file) (Parents file));
     valuesUpdateDo := fun _ _ _ _ _ => inl tt;
     spreadsheetsGetDo := fun l id =>
       inl (mkSpreadsheet id ("fetch-" +:+ Itoa (Z.of_nat (length l))));
     mapRange := fun _ m => elements (dom m) |}.

Definition sheetFile (id name : string) : File :=
  mkFile id name "application/vnd.google-apps.spreadsheet" ["root"].

Definition rowABC : Row :=
  <["a" := [IInt 1]]>
    (<["b" := [IString "x"; IBool true]]> (<["c" := []]> ∅)).

(** A [GDrive] as [Create] returns it: no sheet recorded, nothing sent. *)
Definition fresh : State := mkState (mkGDrive "root" ∅) [].

End Examples.

(** ** Start-up: credentials, token and folder *)

Module Startup.
Import GoString Api Gdrive.

(** [oauth2.Token], [oauth2.Config] and the [*http.Client] that
    [config.Client(ctx, tok)] builds, with the fields that matter here; a
    [*oauth2.Token] may be [nil]. *)
Record Token := mkToken {
  AccessToken : string;
  TokenType : string;
  RefreshToken : string }.

Record Config := mkConfig {
  ClientID : string;
  ClientSecret : string;
  Scopes : list string }.

Record Client := mkClient {
  clientConfig : Config;
  clientToken : option Token }.

Inductive openFlag : Type := O_RDWR | O_CREATE | O_TRUNC.

Inductive authCodeOption : Type := AccessTypeOnline | AccessTypeOffline.

(** What the process does to its surroundings, one event per call. *)
Inductive event : Type :=
| IoutilReadFile (filename : string)
| OsOpen (name : string)
| JsonDecode (name : string)
| FileClose (name : string)
| Printf (text : string)
| FmtScan
| ConfigExchange (config : Config) (code : string)
| OsOpenFile (name : string) (flag : list openFlag) (perm : Z)
| JsonEncode (name : string) (token : option Token)
| DriveNew (client : Client)
| SheetsNew (client : Client)
| Remote (c : call).

(** The machine and the libraries: each answer may depend on everything
    done so far. [google.ConfigFromJSON] and [config.AuthCodeURL] compute
    without effect. [jsonDecodeDo] gives what the decoder leaves in the
    token and the error it returns. *)
Record Host := mkHost {
  readFileDo : list event -> string -> string + error;
  configFromJSONDo : string -> list string -> Config + error;
  osOpenDo : list event -> string -> unit + error;
  jsonDecodeDo : list event -> string -> Token * option error;
  authCodeURLDo : Config -> string -> list authCodeOption -> string;
  fmtScanDo : list event -> string + error;
  exchangeDo : list event -> Config -> string -> Token + error;
  osOpenFileDo : list event -> string -> list openFlag -> Z -> unit + error;
  driveNewDo : list event -> Client -> unit + error;
  sheetsNewDo : list event -> Client -> unit + error;
  services : World }.

(** A function returns, or [log.Fatalf(format, err)] ends the process. *)
Inductive outcome (A : Type) : Type :=
| Done (a : A)
| Fatal (format : string) (err : error).
Arguments Done {A} a.
Arguments Fatal {A} format err.

Definition F (A : Type) : Type := list event -> outcome A * list event.

Definition done {A} (a : A) : F A := fun tr => (Done a, tr).
Definition Fatalf {A} (format : string) (err : error) : F A :=
  fun tr => (Fatal format err, tr).
Definition andThen {A B} (m : F A) (k : A -> F B) : F B :=
  fun tr =>
    match m tr with
    | (Done a, tr') => k a tr'
    | (Fatal format err, tr') => (Fatal format err, tr')
    end.

Notation "x <-- m ;; k" := (andThen m (fun x => k))
  (at level 100, m at next level, right associativity).

(** The requests sent to the remote services so far. *)
Definition remoteLog (tr : list event) : list call :=
  omap (fun e => match e with Remote c => Some c | _ => None end) tr.

Definition emit {A} (e : event) (answer : list event -> A) : F A :=
  fun tr => (Done (answer tr), (tr ++ [e])%list).

Definition remote {A} (c : call) (answer : list call -> A) : F A :=
  emit (Remote c) (fun tr => answer (remoteLog tr)).

Definition newline : string := String (ascii_of_nat 10) EmptyString.

Section Functions.
Variable H : Host.

(** Request a token from the web, then return the retrieved token. *)
Definition getTokenFromWeb (config : Config) : F (option Token) :=
  let authURL := authCodeURLDo H config "state-token" [AccessTypeOffline] in
  _ <-- emit (Printf ("Go to the following link in your browser then type the "
                      +:+ "authorization code: " +:+ newline +:+ authURL
                      +:+ newline)) (fun _ => tt) ;;
  r <-- emit FmtScan (fmtScanDo H) ;;
  match r with
  | inr err => Fatalf "Unable to read authorization code: %v" err
  | inl authCode =>
      r <-- emit (ConfigExchange config authCode)
              (fun tr => exchangeDo H tr config authCode) ;;
      match r with
      | inr err => Fatalf "Unable to retrieve token from web: %v" err
      | inl tok => done (Some tok)
      end
  end.

(** Retrieve a token from a local file. The deferred [f.Close()] runs
    once the results are set. *)
Definition tokenFromFile (file : string) : F (option Token * option error) :=
  r <-- emit (OsOpen file) (fun tr => osOpenDo H tr file) ;;
  match r with
  | inr err => done (None, Some err)
  | inl _ =>
      d <-- emit (JsonDecode file) (fun tr => jsonDecodeDo H tr file) ;;
      _ <-- emit (FileClose file) (fun _ => tt) ;;
      done (Some (fst d), snd d)
  end.

(** Save a token to a file path; the result of [Encode] is dropped.
    The mode [0600] is 384. *)
Definition saveToken (path : string) (token : option Token) : F unit :=
  _ <-- emit (Printf ("Saving credential file to: " +:+ path +:+ newline))
          (fun _ => tt) ;;
  r <-- emit (OsOpenFile path [O_RDWR; O_CREATE; O_TRUNC] 384)
          (fun tr => osOpenFileDo H tr path [O_RDWR; O_CREATE; O_TRUNC] 384) ;;
  match r with
  | inr err => Fatalf "Unable to cache oauth token: %v" err
  | inl _ =>
      _ <-- emit (JsonEncode path token) (fun _ => tt) ;;
      _ <-- emit (FileClose path) (fun _ => tt) ;;
      done tt
  end.

(** Retrieve a token, save the token, then return the generated client. *)
Definition getClient (config : Config) : F Client :=
  let tokFile := "token.json" in
  r <-- tokenFromFile tokFile ;;
  match snd r with
  | Some _ =>
      tok <-- getTokenFromWeb config ;;
      _ <-- saveToken tokFile tok ;;
      done (mkClient config tok)
  | None => done (mkClient config (fst r))
  end.

(** [for _, file := range files.Files { if file.Name == "k8sheets" {
    folder = file } }], from [folder == nil]. *)
Definition pickFolder (files : list File) : option File :=
  fold_left
    (fun folder file =>
       if String.eqb (Name file) "k8sheets" then Some file else folder)
    files None.

(** [Create] sets up connections and credentials. The map [sheets] of the
    value returned is left unset. *)
Definition Create : F GDrive :=
  r <-- emit (IoutilReadFile "credentials.json")
          (fun tr => readFileDo H tr "credentials.json") ;;
  match r with
  | inr err => Fatalf "Unable to read client secret file: %v" err
  | inl b =>
      match configFromJSONDo H b
              ["https://www.googleapis.com/auth/drive.file"] with
      | inr err => Fatalf "Unable to parse client secret file to config: %v" err
      | inl config =>
          client <-- getClient config ;;
          r <-- emit (DriveNew client) (fun tr => driveNewDo H tr client) ;;
          match r with
          | inr err => Fatalf "Unable to retrieve Drive client: %v" err
          | inl _ =>
              r <-- remote
                      (DriveFilesList
                         "mimeType = 'application/vnd.google-apps.folder'")
                      (fun l => filesListDo (services H) l
                          "mimeType = 'application/vnd.google-apps.folder'") ;;
              match r with
              | inr err => Fatalf "Unable to retrieve files: %v" err
              | inl files =>
                  folder <--
                    match pickFolder (Files files) with
                    | Some folder => done folder
                    | None =>
                        let request :=
                          {| Id := "";
                             Name := "k8sheets";
                             MimeType := "application/vnd.google-apps.folder";
                             Parents := [] |} in
                        r <-- remote (DriveFilesCreate request)
                                (fun l =>
                                   filesCreateDo (services H) l request) ;;
                        match r with
                        | inr err => Fatalf "Unable to create folder: %v" err
                        | inl folder => done folder
                        end
                    end ;;
                  r <-- emit (SheetsNew client)
                          (fun tr => sheetsNewDo H tr client) ;;
                  match r with
                  | inr err => Fatalf "Unable to retrieve Sheets client: %v" err
                  | inl _ => done (mkGDrive (Id folder) ∅)
                  end
              end
          end
      end
  end.
End Functions.

(** What a computation did when started after [tr]. *)
Definition emitted {A} (m : F A) (tr : list event) : list event :=
  drop (length tr) (snd (m tr)).

(** The state in which the methods of a [GDrive] returned by [Create]
    run. *)
Definition ready (gDrive : GDrive) (tr : list event) : State :=
  mkState gDrive (remoteLog tr).

End Startup.

(** ** More sample worlds, and sample hosts *)

Module MoreExamples.
Import GoString Api Gdrive Startup Examples.

Definition is_SheetsGet (c : call) : bool :=
  match c with SheetsGet _ => true | _ => false end.

Definition quotaError : error := ApiError 403 "quota exceeded".

(** A world that gives the same four answers whatever is asked. *)
Definition scriptedWorld (listing : FileList + error) (created : File + error)
    (updated : unit + error) (fetched : Spreadsheet + error) : World :=
  {| filesListDo := fun _ _ => listing;
     filesCreateDo := fun _ _ => created;
     valuesUpdateDo := fun _ _ _ _ _ => updated;
     spreadsheetsGetDo := fun _ _ => fetched;
     mapRange := fun _ m => elements (dom m) |}.

Definition sampleSheet : Spreadsheet := mkSpreadsheet "f1" "https://sheet/f1".

Definition savedToken : Token := mkToken "saved" "Bearer" "refresh-1".
Definition webToken : Token := mkToken "fresh" "Bearer" "refresh-2".

Definition folderFile (id name : string) : File :=
  mkFile id name "application/vnd.google-apps.folder" [].

(** A host whose credentials file reads as [credentials], whose token
    file opens as [opened] for reading and as [writable] for writing and
    decodes with error [decodeErr], where the operator types a code that
    is exchanged for [webToken], and where every other call succeeds. *)
Definition scriptedHost (credentials : string + error)
    (opened : unit + error) (decodeErr : option error)
    (writable : unit + error) (W : World) : Host :=
  {| readFileDo := fun _ _ => credentials;
     configFromJSONDo := fun b scopes => inl (mkConfig b "secret" scopes);
     osOpenDo := fun _ _ => opened;
     jsonDecodeDo := fun _ _ => (savedToken, decodeErr);
     authCodeURLDo := fun _ state _ => "https://auth/?state=" +:+ state;
     fmtScanDo := fun _ => inl "4/code";
     exchangeDo := fun _ _ _ => inl webToken;
     osOpenFileDo := fun _ _ _ _ => writable;
     driveNewDo := fun _ _ => inl tt;
     sheetsNewDo := fun _ _ => inl tt;
     services := W |}.

Definition noSuchFile : error := ErrorString "no such file or directory".

Definition sampleConfig : Config :=
  mkConfig "client" "secret" ["https://www.googleapis.com/auth/drive.file"].

End MoreExamples.

(** ** Vocabulary of the start-up properties *)

Module StartupNotions.
Import GoString Api Gdrive Startup.

(** The listing [Create] asks for, and the folder it asks to create. *)
Definition folderQuery : string :=
  "mimeType = 'application/vnd.google-apps.folder'".

Definition folderRequest : File :=
  {| Id := "";
     Name := "k8sheets";
     MimeType := "application/vnd.google-apps.folder";
     Parents := [] |}.


Definition is_k8sheets (file : File) : bool :=
  String.eqb (Name file) "k8sheets".

(** What [getTokenFromWeb] and [saveToken] print. *)
Definition promptText (authURL : string) : string :=
  "Go to the following link in your browser then type the "
  +:+ "authorization code: " +:+ newline +:+ authURL +:+ newline.

Definition savingText (path : string) : string :=
  "Saving credential file to: " +:+ path +:+ newline.


Definition is_Remote (e : event) : bool :=
  match e with Remote _ => true | _ => false end.

(** [tokenFromFile] reports an error: the file does not open, or it does
    not decode. *)
Definition tokenFileFails (H : Host) (tr : list event) : Prop :=
  match fst (tokenFromFile H "token.json" tr) with
  | Done (_, Some _) => True
  | _ => False
  end.

End StartupNotions.

(** * Properties *)

(** ** 64-bit arithmetic *)

Module GoIntFacts.
Import GoInt.

Lemma wrap_id z : is_int z -> wrap z = z.
Proof.
  unfold is_int, int_min, int_max, wrap. intros H.
  rewrite Z.mod_small; lia.
Qed.

Lemma wrap_is_int z : is_int (wrap z).
Proof.
  unfold is_int, int_min, int_max, wrap.
  pose proof (Z.mod_pos_bound (z + 9223372036854775808)
                18446744073709551616 eq_refl). lia.
Qed.

Lemma small_is_int z :
  -9223372036854775808 <= z <= 9223372036854775807 -> is_int z.
Proof. unfold is_int, int_min, int_max. lia. Qed.

Lemma add_id a b : is_int (a + b) -> add a b = a + b.
Proof. apply wrap_id. Qed.
Lemma sub_id a b : is_int (a - b) -> sub a b = a - b.
Proof. apply wrap_id. Qed.
Lemma mul_id a b : is_int (a * b) -> mul a b = a * b.
Proof. apply wrap_id. Qed.

End GoIntFacts.

(** ** Column codec *)

Module CodecFacts.
Import GoInt GoString Codec Notions GoIntFacts.

(** On a positive [int] no operation of the body wraps: the body takes
    the last base-26 digit of [column - 1] and leaves the quotient. *)
Lemma columnToLetter_body column :
  0 < column <= int_max ->
  columnToLetter_temp column = (column - 1) mod 26 /\
  columnToLetter_next column = (column - 1) / 26.
Proof.
  intros Hc. unfold columnToLetter_next, columnToLetter_temp, quo, rem, sub.
  assert (Hi : is_int (column - 1))
    by (unfold is_int, int_min, int_max in *; lia).
  rewrite (wrap_id _ Hi).
  rewrite Z.rem_mod_nonneg by lia.
  pose proof (Z.mod_pos_bound (column - 1) 26 eq_refl) as Hm.
  pose proof (Z.div_mod (column - 1) 26 ltac:(lia)) as Hdm.
  assert (Hq0 : 0 <= (column - 1) / 26) by (apply Z.div_pos; lia).
  split; [reflexivity|].
  assert (Hi2 : is_int (column - (column - 1) mod 26))
    by (unfold is_int, int_min, int_max in *; lia).
  rewrite (wrap_id _ Hi2).
  assert (Hi3 : is_int (column - (column - 1) mod 26 - 1))
    by (unfold is_int, int_min, int_max in *; lia).
  rewrite (wrap_id _ Hi3).
  replace (column - (column - 1) mod 26 - 1) with ((column - 1) / 26 * 26)
    by lia.
  rewrite Z.quot_div_nonneg by lia.
  rewrite Z.div_mul by lia.
  apply wrap_id. unfold is_int, int_min, int_max in *. lia.
Qed.

(** Each pass at least halves a positive [column], for any [column]. *)
Lemma columnToLetter_next_half column :
  0 < column -> 2 * columnToLetter_next column <= column.
Proof.
  intros Hpos.
  destruct (Z_le_gt_dec column int_max) as [Hle|Hgt].
  - destruct (columnToLetter_body column) as [_ ->]; [lia|].
    pose proof (Z.div_mod (column - 1) 26 ltac:(lia)) as Hdm.
    pose proof (Z.mod_pos_bound (column - 1) 26 eq_refl) as Hm.
    lia.
  - unfold columnToLetter_next, quo.
    match goal with |- context [Z.quot (sub ?a ?b) 26] =>
      pose proof (wrap_is_int (a - b)) as Hx;
      fold (sub a b) in Hx; set (y := sub a b) in *; clearbody y end.
    assert (Hq : - 9223372036854775808 <= 26 * Z.quot y 26
                 <= 9223372036854775807).
    { unfold is_int, int_min, int_max in Hx.
      Z.to_euclidean_division_equations. lia. }
    rewrite wrap_id by (unfold is_int, int_min, int_max; lia).
    unfold int_max in Hgt. lia.
Qed.

(** *** The bound on the number of passes is never reached *)

Lemma enough_next passes column :
  0 < column -> enough (S passes) column ->
  enough passes (columnToLetter_next column).
Proof.
  intros Hpos [Hle|Hp]; [lia|].
  destruct (Z_le_gt_dec (columnToLetter_next column) 0) as [H0|H0];
    [now left | right].
  pose proof (columnToLetter_next_half column Hpos) as Hhalf.
  unfold columnToLetter_passes in *.
  assert (Hlog : Z.log2 (columnToLetter_next column) < Z.log2 column).
  { pose proof (Z.log2_double (columnToLetter_next column) ltac:(lia)) as Hd.
    pose proof (Z.log2_le_mono _ _ Hhalf) as Hm. lia. }
  pose proof (Z.log2_nonneg (columnToLetter_next column)). lia.
Qed.

Lemma columnToLetter_iter_enough p1 :
  forall p2 column letter,
    enough p1 column -> enough p2 column ->
    columnToLetter_iter p1 column letter = columnToLetter_iter p2 column letter.
Proof.
  induction p1 as [|p1 IH]; intros p2 column letter H1 H2.
  - destruct H1 as [H1|H1]; [|unfold columnToLetter_passes in H1; lia].
    destruct p2; simpl; [reflexivity|].
    destruct (0 <? column) eqn:E; [apply Z.ltb_lt in E; lia | reflexivity].
  - destruct p2 as [|p2].
    + destruct H2 as [H2|H2]; [|unfold columnToLetter_passes in H2; lia].
      simpl.
      destruct (0 <? column) eqn:E; [apply Z.ltb_lt in E; lia | reflexivity].
    + simpl. destruct (0 <? column) eqn:E; [|reflexivity].
      apply Z.ltb_lt in E.
      apply IH; now apply enough_next.
Qed.

(** The loop satisfies the equation of [for column > 0 { ... }]. *)
Lemma columnToLetter_loop_eq column letter :
  columnToLetter_loop column letter =
    if 0 <? column then
      columnToLetter_loop (columnToLetter_next column)
        (string_of_rune (add (columnToLetter_temp column) 65) +:+ letter)
    else letter.
Proof.
  unfold columnToLetter_loop at 1. unfold columnToLetter_passes at 1.
  cbn [columnToLetter_iter].
  destruct (0 <? column) eqn:E; [|reflexivity].
  apply Z.ltb_lt in E.
  unfold columnToLetter_loop.
  apply columnToLetter_iter_enough.
  - apply enough_next; [assumption|]. right. reflexivity.
  - right. reflexivity.
Qed.

(** *** Labels as base-26 numerals without a zero digit *)

Lemma len_nonneg s : 0 <= len s.
Proof. unfold len. lia. Qed.

Lemma len_String b s : len (String b s) = len s + 1.
Proof. unfold len. cbn [String.length]. lia. Qed.

Lemma app_nil_l s : EmptyString +:+ s = s.
Proof. reflexivity. Qed.

Lemma app_String b s1 s2 : String b s1 +:+ s2 = String b (s1 +:+ s2).
Proof. reflexivity. Qed.

Lemma len_app s1 s2 : len (s1 +:+ s2) = len s1 + len s2.
Proof.
  induction s1 as [|b s1 IH].
  - rewrite app_nil_l. change (len EmptyString) with 0. lia.
  - rewrite app_String, !len_String, IH. lia.
Qed.

Lemma app_assoc s1 s2 s3 : (s1 +:+ s2) +:+ s3 = s1 +:+ (s2 +:+ s3).
Proof.
  induction s1 as [|b s1 IH]; [reflexivity|].
  now rewrite !app_String, IH.
Qed.

Lemma pval_app s1 s2 :
  pval (s1 +:+ s2) = pval s1 * 26 ^ len s2 + pval s2.
Proof.
  induction s1 as [|b s1 IH].
  - rewrite app_nil_l. cbn [pval]. lia.
  - rewrite app_String. cbn [pval].
    rewrite IH, len_app, Z.pow_add_r by apply len_nonneg. ring.
Qed.

Lemma upper_app s1 s2 : upper s1 -> upper s2 -> upper (s1 +:+ s2).
Proof.
  induction s1 as [|b s1 IH]; [now rewrite app_nil_l|].
  rewrite app_String. cbn [upper].
  intros [Hb H1] H2. split; [assumption | now apply IH].
Qed.

Lemma pval_nonneg s : upper s -> 0 <= pval s.
Proof.
  induction s as [|b s IH]; cbn [upper pval]; [lia|].
  intros [Hb Hs]. specialize (IH Hs).
  pose proof (Z.pow_nonneg 26 (len s) ltac:(lia)). nia.
Qed.

Lemma int_of_byte_of z : 0 <= z < 256 -> int_of_byte (byte_of z) = z.
Proof.
  intros Hz. unfold int_of_byte, byte_of.
  rewrite N_ascii_embedding by lia. lia.
Qed.

(** The rune written for a digit [temp] is the single byte [temp + 65]. *)
Lemma digit_rune temp :
  0 <= temp <= 25 ->
  string_of_rune (add temp 65) = String (byte_of (temp + 65)) EmptyString.
Proof.
  intros Ht. rewrite add_id by (apply small_is_int; lia).
  unfold string_of_rune.
  replace (0 <=? temp + 65) with true by (symmetry; apply Z.leb_le; lia).
  replace (temp + 65 <? 128) with true by (symmetry; apply Z.ltb_lt; lia).
  reflexivity.
Qed.

(** What the loop prepends for a column in [int] range: a label of
    letters whose value is the column, of logarithmic length. *)
Lemma columnToLetter_loop_spec column :
  0 <= column <= int_max ->
  forall letter, exists s,
    columnToLetter_loop column letter = s +:+ letter /\
    upper s /\ pval s = column /\ 26 ^ len s <= 25 * column + 1.
Proof.
  intros [Hlo Hhi]. revert Hhi.
  pattern column. apply (Zlt_0_ind); [|assumption].
  clear column Hlo. intros column IH Hlo Hhi letter.
  rewrite columnToLetter_loop_eq.
  destruct (0 <? column) eqn:E.
  - apply Z.ltb_lt in E.
    destruct (columnToLetter_body column) as [Ht Hn]; [lia|].
    pose proof (Z.mod_pos_bound (column - 1) 26 eq_refl) as Hm.
    pose proof (Z.div_mod (column - 1) 26 ltac:(lia)) as Hdm.
    assert (Hq0 : 0 <= (column - 1) / 26) by (apply Z.div_pos; lia).
    rewrite Hn, Ht, digit_rune by lia.
    set (q := (column - 1) / 26) in *.
    set (t := (column - 1) mod 26) in *.
    destruct (IH q ltac:(lia) ltac:(lia)
                (String (byte_of (t + 65)) EmptyString +:+ letter))
      as (s & Hs & Hup & Hv & Hlen).
    exists (s +:+ String (byte_of (t + 65)) EmptyString).
    split; [now rewrite app_assoc|].
    split.
    { apply upper_app; [assumption|]. cbn [upper].
      rewrite int_of_byte_of by lia. lia. }
    split.
    { rewrite pval_app. cbn [pval]. rewrite int_of_byte_of by lia.
      rewrite Hv. change (len (String (byte_of (t + 65)) EmptyString)) with 1.
      change (len EmptyString) with 0. lia. }
    { rewrite len_app.
      change (len (String (byte_of (t + 65)) EmptyString)) with 1.
      rewrite Z.pow_add_r by (try apply len_nonneg; lia). lia. }
  - apply Z.ltb_ge in E. assert (column = 0) by lia. subst column.
    exists EmptyString. rewrite app_nil_l. cbn [upper pval].
    change (len EmptyString) with 0. repeat split; lia.
Qed.

(** A label of an [int] has at most 14 letters, so [letterToColumn] asks
    for powers of 26 with exponent at most 13. *)
Lemma label_len_le_14 s column :
  column <= int_max -> 26 ^ len s <= 25 * column + 1 -> len s <= 14.
Proof.
  intros Hhi Hlen. unfold int_max in Hhi.
  destruct (Z_le_gt_dec (len s) 14) as [|Hgt]; [assumption|exfalso].
  pose proof (Z.pow_le_mono_r 26 15 (len s) ltac:(lia) ltac:(lia)) as Hp.
  change (26 ^ 15) with 1677259342285725925376 in Hp. lia.
Qed.

Section LetterToColumnSpec.
Variable pow26 : Z -> Z.
Hypothesis pow26_exact : Pow26_exact pow26.

(** On a label of letters whose value fits an [int], the loop adds the
    value of the unread part and no multiplication or addition
    wraps. *)
Lemma letterToColumn_loop_spec length :
  length <= 14 ->
  forall rest i column,
    upper rest -> 0 <= i -> i + len rest = length ->
    0 <= column -> column + pval rest <= int_max ->
    letterToColumn_loop pow26 length rest i column = column + pval rest.
Proof.
  intros Hlen rest.
  induction rest as [|b rest IH]; intros i column Hup Hi Hil Hc Hmax;
    cbn [letterToColumn_loop pval].
  - lia.
  - destruct Hup as [Hb Hup]. rewrite len_String in Hil.
    pose proof (len_nonneg rest) as Hr.
    pose proof (pval_nonneg rest Hup) as Hv.
    cbn [pval] in Hmax. unfold int_max in Hmax.
    pose proof (Z.pow_pos_nonneg 26 (len rest) ltac:(lia) Hr) as Hpow.
    rewrite (sub_id (int_of_byte b) 64) by (apply small_is_int; lia).
    rewrite (sub_id length i) by (apply small_is_int; lia).
    rewrite (sub_id (length - i) 1) by (apply small_is_int; lia).
    replace (length - i - 1) with (len rest) by lia.
    rewrite pow26_exact by lia.
    rewrite mul_id by (apply small_is_int; nia).
    rewrite (add_id column) by (apply small_is_int; nia).
    rewrite (add_id i 1) by (apply small_is_int; lia).
    rewrite IH; [lia | assumption | lia | lia | nia | unfold int_max; lia].
Qed.

Lemma letterToColumn_pval letter :
  upper letter -> len letter <= 14 -> pval letter <= int_max ->
  letterToColumn pow26 letter = pval letter.
Proof.
  intros Hup Hlen Hmax. unfold letterToColumn.
  rewrite (letterToColumn_loop_spec (len letter));
    [lia | assumption | assumption | lia | lia | lia | lia].
Qed.
End LetterToColumnSpec.

(** The label of a positive [int]: letters only, and its base-26 value is
    the column. *)
Lemma columnToLetter_label column :
  0 <= column <= int_max ->
  upper (columnToLetter column) /\
  pval (columnToLetter column) = column /\
  len (columnToLetter column) <= 14.
Proof.
  intros Hc. destruct (columnToLetter_loop_spec column Hc EmptyString)
    as (s & Hs & Hup & Hv & Hlen).
  assert (Happ : forall t, t +:+ EmptyString = t).
  { induction t as [|b t IHt]; [reflexivity|].
    now rewrite app_String, IHt. }
  unfold columnToLetter. rewrite Hs, Happ.
  repeat split; try assumption.
  apply (label_len_le_14 s column); [lia | assumption].
Qed.

(** C4: for every positive [int] [n],
    [letterToColumn(columnToLetter(n)) == n], and in particular at
    n = 1, 25, 26, 27, 52, 676, 702, 703. The powers of 26 that
    [math.Pow] is asked for have exponent at most 13 ([Pow26_exact]). *)
Theorem letterToColumn_columnToLetter (pow26 : Z -> Z) :
  Pow26_exact pow26 ->
  (forall n, 0 < n <= int_max ->
             letterToColumn pow26 (columnToLetter n) = n) /\
  Forall (fun n => letterToColumn pow26 (columnToLetter n) = n)
    [1; 25; 26; 27; 52; 676; 702; 703].
Proof.
  intros Hpow.
  assert (Hall : forall n, 0 < n <= int_max ->
                           letterToColumn pow26 (columnToLetter n) = n).
  { intros n Hn.
    destruct (columnToLetter_label n ltac:(lia)) as (Hup & Hv & Hlen).
    rewrite (letterToColumn_pval pow26 Hpow); [assumption..|lia]. }
  split; [exact Hall|].
  repeat constructor; apply Hall; unfold int_max; lia.
Qed.

Lemma letterToColumn_columnToLetter_witness :
  Pow26_exact (fun k => 26 ^ k) /\
  letterToColumn (fun k => 26 ^ k) (columnToLetter 703) = 703.
Proof.
  assert (H : Pow26_exact (fun k => 26 ^ k)) by (intros k _; reflexivity).
  split; [exact H|].
  apply (proj1 (letterToColumn_columnToLetter (fun k => 26 ^ k) H)).
  unfold int_max. lia.
Defined.

(** C9: [columnToLetter(1) == "A"], [columnToLetter(26) == "Z"],
    [columnToLetter(27) == "AA"] and [columnToLetter(702) == "ZZ"]. *)
Theorem columnToLetter_examples :
  columnToLetter 1 = "A" /\ columnToLetter 26 = "Z" /\
  columnToLetter 27 = "AA" /\ columnToLetter 702 = "ZZ".
Proof. repeat split; vm_compute; reflexivity. Qed.

(** C10: for every [int] [n <= 0], [columnToLetter(n)] returns the empty
    string (the loop body never runs), and [letterToColumn] of that
    result is 0, whatever [n] was: the round trip gives back [n] only
    when [n] is 0 itself. *)
Theorem columnToLetter_nonpositive (pow26 : Z -> Z) (n : Z) :
  n <= 0 ->
  columnToLetter n = "" /\
  letterToColumn pow26 (columnToLetter n) = 0 /\
  (letterToColumn pow26 (columnToLetter n) = n <-> n = 0).
Proof.
  intros Hn.
  assert (He : columnToLetter n = "").
  { unfold columnToLetter. rewrite columnToLetter_loop_eq.
    replace (0 <? n) with false by (symmetry; apply Z.ltb_ge; lia).
    reflexivity. }
  rewrite He. repeat split; try reflexivity.
  - intros H. cbn in H. lia.
  - intros ->. reflexivity.
Qed.

Lemma columnToLetter_nonpositive_witness :
  -5 <= 0 /\ columnToLetter (-5) = "" /\
  letterToColumn (fun k => 26 ^ k) (columnToLetter (-5)) = 0.
Proof.
  split; [lia|].
  destruct (columnToLetter_nonpositive (fun k => 26 ^ k) (-5) ltac:(lia))
    as (H1 & H2 & _).
  split; assumption.
Defined.

End CodecFacts.

(** ** Header write and resolution *)

Module GdriveFacts.
Import GoInt GoString Codec Api Gdrive Notions Examples GoIntFacts.
Import MoreExamples.

Lemma sent_app {A} (m : M A) (s : State) (cs : list call) :
  log (snd (m s)) = (log s ++ cs)%list -> sent m s = cs.
Proof. unfold sent. intros ->. apply drop_app_length. Qed.

Lemma a1Range_header endColumn :
  a1Range "A" 1 endColumn 2 = "A1:" +:+ endColumn +:+ "2".
Proof. reflexivity. Qed.

Section World.
Variable W : World.

(** [updateSheetHead] sends one request, the header write, and returns
    the error of that request, if any. *)
Lemma updateSheetHead_run fileID title description data s :
  updateSheetHead W fileID title description data s =
    let ks := mapRange W (log s) data in
    let c := headerCall fileID description ks in
    (match valuesUpdateDo W (log s) fileID
             (a1Range "A" 1
                (columnToLetter (add 1 (Z.of_nat (length ks)))) 2)
             (mkValueRange [[IString description]; map IString ks]) "RAW"
     with
     | inl _ => None
     | inr err => Some err
     end,
     mkState (drive s) (log s ++ [c])).
Proof.
  unfold updateSheetHead, rangeKeys, valuesUpdate, perform, bind, ret.
  cbn [fst snd drive log].
  rewrite length_map.
  change (Itoa (Z.of_nat (length [[IString description];
            map IString (mapRange W (log s) data)]))) with "2".
  unfold headerCall. rewrite a1Range_header.
  match goal with
  | |- context [valuesUpdateDo W ?l ?a ?b ?c ?d] =>
      destruct (valuesUpdateDo W l a b c d)
  end; reflexivity.
Qed.
End World.

(** Unfold one call of [getSheet] down to the answers of the world. *)
Ltac run_getSheet :=
  unfold LogRow, getSheet, filesList, filesCreate, spreadsheetsGet,
    perform, receiver, bind, ret;
  cbn [fst snd drive log];
  repeat first
    [ rewrite updateSheetHead_run; cbn [fst snd drive log]
    | match goal with
      | H : ?x = _ |- context [match ?x with _ => _ end] =>
          rewrite H; cbn [fst snd drive log Files]
      | |- context [match ?x with _ => _ end] =>
          destruct x eqn:?; cbn [fst snd drive log Files]
      end ].

Section Resolution.
Variable W : World.
Variables title description : string.
Variable data : Row.

(** [getSheet] never assigns to a field of its receiver. *)
Lemma getSheet_drive s :
  drive (snd (getSheet W title description data s)) = drive s.
Proof. run_getSheet; reflexivity. Qed.

(** X1: a title found in [gDrive.sheets] is returned as recorded, without
    any request: no listing, no header write, no fetch. *)
Lemma getSheet_hit s sheet :
  sheets (drive s) !! title = Some sheet ->
  getSheet W title description data s = ((sheet, None), s) /\
  sent (getSheet W title description data) s = [].
Proof.
  intros H. unfold sent. run_getSheet.
  split; [reflexivity | apply drop_all].
Qed.
End Resolution.

(** Reduce [sent] once the run has been unfolded. *)
Ltac sent_simpl :=
  rewrite <- ?List.app_assoc; rewrite ?drop_app_length, ?drop_all;
  cbn [app].

(** Write every log of the context as [log s ++ [c1; ...; cn]]. *)
Ltac flatten_logs :=
  repeat match goal with
    | H : context [((_ ++ _) ++ _)%list] |- _ =>
        rewrite <- List.app_assoc in H; cbn [app] in H
    end;
  rewrite <- ?List.app_assoc; cbn [app].

(** Use the answers assumed in the context where a case split met the
    same request. *)
Ltac use_answers :=
  repeat match goal with
    | Hh : ?x = _, E : context [match ?x with _ => _ end] |- _ =>
        rewrite Hh in E; cbn beta iota in E
    end.

Section Claims.
Variable W : World.
Variables title description : string.
Variable data : Row.

(** C5: when the listing on a cache miss reports two or more files,
    [getSheet] fails with an error whose message carries the number of
    matches, having sent the listing and nothing else: no header
    write and no create. *)
Theorem getSheet_ambiguous s files :
  sheets (drive s) !! title = None ->
  filesListDo W (log s) (listQuery title (folderID (drive s))) = inl files ->
  (2 <= length (Files files))%nat ->
  fst (getSheet W title description data s) =
    (None,
     Some (ErrorString
             ("Got " +:+ Itoa (Z.of_nat (length (Files files)))
              +:+ " files with name " +:+ title +:+ ", expected 1"))) /\
  sent (getSheet W title description data) s =
    [DriveFilesList (listQuery title (folderID (drive s)))] /\
  count is_SheetsValuesUpdate (sent (getSheet W title description data) s)
    = 0%nat /\
  count is_DriveFilesCreate (sent (getSheet W title description data) s)
    = 0%nat.
Proof.
  intros Hmiss Hlist Hlen. unfold listQuery in *.
  destruct (Files files) as [|f0 [|f1 fs]] eqn:Hfiles;
    [cbn in Hlen; lia | cbn in Hlen; lia |].
  unfold sent. run_getSheet. sent_simpl.
  repeat split; reflexivity.
Qed.

(** C6, as the code has it: on a cache miss with no match, [getSheet]
    sends exactly one create; when the create succeeds it sends exactly
    one header write, to the file created; when that write succeeds the
    requests are the listing, the create, the header write and the
    fetch, in this order; and when the fetch succeeds the handle fetched
    is returned with a nil error. With exactly one match it sends no
    create and exactly one header write, to the file listed; when that
    write succeeds the requests are the listing, the header write and
    the fetch; and when the fetch succeeds the handle fetched is
    returned with a nil error. Every condition is on the answer to the
    request this call sends. *)
Theorem getSheet_find_or_create s files :
  let q := listQuery title (folderID (drive s)) in
  let create := newFile title (folderID (drive s)) in
  let run := getSheet W title description data in
  sheets (drive s) !! title = None ->
  filesListDo W (log s) q = inl files ->
  (Files files = [] ->
   count is_DriveFilesCreate (sent run s) = 1%nat /\
   forall file,
     filesCreateDo W (log s ++ [DriveFilesList q]) create = inl file ->
     let l2 := (log s ++ [DriveFilesList q; DriveFilesCreate create])%list in
     let ks := mapRange W l2 data in
     let hdr := headerCall (Id file) description ks in
     count is_SheetsValuesUpdate (sent run s) = 1%nat /\
     (headerAnswer W l2 (Id file) description ks = inl tt ->
      sent run s =
        [DriveFilesList q; DriveFilesCreate create; hdr;
         SheetsGet (Id file)] /\
      forall sheet,
        spreadsheetsGetDo W (l2 ++ [hdr]) (Id file) = inl sheet ->
        fst (run s) = (Some sheet, None))) /\
  (forall file0,
      Files files = [file0] ->
      let l1 := (log s ++ [DriveFilesList q])%list in
      let ks := mapRange W l1 data in
      let hdr := headerCall (Id file0) description ks in
      count is_DriveFilesCreate (sent run s) = 0%nat /\
      count is_SheetsValuesUpdate (sent run s) = 1%nat /\
      (headerAnswer W l1 (Id file0) description ks = inl tt ->
       sent run s = [DriveFilesList q; hdr; SheetsGet (Id file0)] /\
       forall sheet,
         spreadsheetsGetDo W (l1 ++ [hdr]) (Id file0) = inl sheet ->
         fst (run s) = (Some sheet, None))).
Proof.
  intros q create run Hmiss Hlist. subst q create run.
  unfold listQuery, newFile, headerAnswer in *. cbv zeta.
  split.
  - intros Hfiles. split.
    + unfold sent. run_getSheet; sent_simpl; reflexivity.
    + intros file Hcreate. split.
      * unfold sent. run_getSheet; sent_simpl; reflexivity.
      * intros Hhdr. split.
        -- unfold sent. run_getSheet; sent_simpl; flatten_logs;
             use_answers; first [reflexivity | congruence].
        -- intros sheet Hget.
           run_getSheet; flatten_logs; use_answers; congruence.
  - intros file0 Hfiles. split; [|split].
    + unfold sent. run_getSheet; sent_simpl; reflexivity.
    + unfold sent. run_getSheet; sent_simpl; reflexivity.
    + intros Hhdr. split.
      * unfold sent. run_getSheet; sent_simpl; flatten_logs;
          use_answers; first [reflexivity | congruence].
      * intros sheet Hget.
        run_getSheet; flatten_logs; use_answers; congruence.
Qed.

(** C7: whenever [getSheet] returns an error (a failed listing, create
    or header write, or an ambiguous title), the map [gDrive.sheets]
    is what it was before the call. *)
Theorem getSheet_error_keeps_sheets s :
  snd (fst (getSheet W title description data s)) <> None ->
  sheets (drive (snd (getSheet W title description data s))) =
    sheets (drive s).
Proof. intros _. now rewrite getSheet_drive. Qed.

(** Every request [getSheet] sends that writes cells is the header
    write of [data]: the description and the key names. *)
Lemma getSheet_updates_are_headers s :
  Forall (fun c =>
            is_SheetsValuesUpdate c = true ->
            exists id l, c = headerCall id description (mapRange W l data))
    (sent (getSheet W title description data) s).
Proof.
  unfold sent. run_getSheet; sent_simpl.
  all: repeat first [apply Forall_nil_2 | apply Forall_cons_2].
  all: cbn [is_SheetsValuesUpdate]; intros Hc; try discriminate Hc.
  all: eexists _, _; reflexivity.
Qed.

(** C8: [LogRow] is [getSheet] with the handle dropped: the same
    requests, the same final state, and the error of [getSheet] as its
    result, so it succeeds exactly when [getSheet] does. Every write
    of cells it sends is the header write: the description and the
    key names of the row, none of the row's values. *)
Theorem LogRow_delegates s :
  mapRange_ok W ->
  fst (LogRow W title description data s) =
    snd (fst (getSheet W title description data s)) /\
  snd (LogRow W title description data s) =
    snd (getSheet W title description data s) /\
  (fst (LogRow W title description data s) = None <->
   is_success (fst (getSheet W title description data s))) /\
  Forall (fun c =>
            is_SheetsValuesUpdate c = true ->
            exists id ks,
              ks ≡ₚ elements (dom data) /\
              c = headerCall id description ks)
    (sent (LogRow W title description data) s).
Proof.
  intros Hrange.
  assert (Hrun : LogRow W title description data s =
                 (snd (fst (getSheet W title description data s)),
                  snd (getSheet W title description data s))).
  { unfold LogRow, bind, ret.
    destruct (getSheet W title description data s) as [[sheet err] s'].
    cbn [fst snd]. now destruct err. }
  assert (Hsent : sent (LogRow W title description data) s =
                  sent (getSheet W title description data) s).
  { unfold sent. now rewrite Hrun. }
  rewrite Hrun, Hsent. cbn [fst snd]. unfold is_success.
  repeat split; try tauto.
  eapply Forall_impl; [apply getSheet_updates_are_headers|].
  cbn beta. intros c Hc Hup. destruct (Hc Hup) as (id & l & ->).
  eexists _, _. split; [apply Hrange | reflexivity].
Qed.

(** What [updateSheetHead] sends. *)
Lemma updateSheetHead_sent fileID s :
  mapRange_ok W ->
  sent (updateSheetHead W fileID title description data) s =
    [SheetsValuesUpdate fileID
       (a1Range "A" 1
          (columnToLetter (add 1 (Z.of_nat (size data)))) 2)
       (mkValueRange
          [[IString description];
           map IString (mapRange W (log s) data)])
       "RAW"].
Proof.
  intros Hrange.
  apply sent_app. rewrite updateSheetHead_run. cbn [snd log].
  unfold headerCall.
  assert (Hlen : length (mapRange W (log s) data) = size data).
  { rewrite (Hrange (log s) data). rewrite <- size_dom. reflexivity. }
  now rewrite Hlen.
Qed.

(** C3: for a row of [k] keys, [updateSheetHead] sends one update of
    the range from cell A1 to row 2 of column
    [columnToLetter(1 + k)], in raw input mode, whose first row is the
    description alone and whose second row is the key names, one per
    cell, in the order [range] yielded them. *)
Theorem updateSheetHead_header fileID s :
  mapRange_ok W ->
  let ks := mapRange W (log s) data in
  ks ≡ₚ elements (dom data) /\
  sent (updateSheetHead W fileID title description data) s =
    [SheetsValuesUpdate fileID
       (a1Range "A" 1
          (columnToLetter (add 1 (Z.of_nat (size data)))) 2)
       (mkValueRange [[IString description]; map IString ks])
       "RAW"].
Proof.
  intros Hrange ks. split; [apply Hrange|].
  now apply updateSheetHead_sent.
Qed.
End Claims.

(** *** The header of a row with keys a, b and c *)

Lemma elements_abc :
  elements ({["a"; "b"; "c"]} : gset string) ≡ₚ ["a"; "b"; "c"].
Proof.
  apply NoDup_Permutation.
  - apply NoDup_elements.
  - apply (bool_decide_unpack _). vm_compute. exact I.
  - intros x. rewrite elem_of_elements.
    rewrite !elem_of_union, !elem_of_singleton.
    rewrite !elem_of_cons, elem_of_nil. tauto.
Qed.

Lemma updateSheetHead_abc_sent W fileID title (data : Row) s :
  mapRange_ok W ->
  dom data = {["a"; "b"; "c"]} ->
  mapRange W (log s) data ≡ₚ ["a"; "b"; "c"] /\
  sent (updateSheetHead W fileID title "D" data) s =
    [SheetsValuesUpdate fileID "A1:D2"
       (mkValueRange
          [[IString "D"]; map IString (mapRange W (log s) data)])
       "RAW"].
Proof.
  intros Hrange Hdom. split.
  - rewrite (Hrange (log s) data), Hdom. apply elements_abc.
  - rewrite updateSheetHead_sent by assumption.
    assert (Hsize : size data = 3%nat).
    { rewrite <- size_dom, Hdom.
      unfold size, set_size. cbn [compose].
      now rewrite elements_abc. }
    rewrite Hsize. reflexivity.
Qed.

(** C2, as the code has it: the header write of a row whose keys are
    a, b and c, with description D, sends one update of the range
    A1:D2 (the end column is the letter of 1 + 3), whose first row is
    [D] and whose second row holds the three keys, each once, in some
    order. *)
Theorem updateSheetHead_abc W fileID title (data : Row) s :
  mapRange_ok W ->
  dom data = {["a"; "b"; "c"]} ->
  exists ks,
    ks ≡ₚ ["a"; "b"; "c"] /\
    sent (updateSheetHead W fileID title "D" data) s =
      [SheetsValuesUpdate fileID "A1:D2"
         (mkValueRange [[IString "D"]; map IString ks]) "RAW"].
Proof.
  intros Hrange Hdom. eexists.
  exact (updateSheetHead_abc_sent W fileID title data s Hrange Hdom).
Qed.

(** *** The claims at sample inputs *)

Lemma steadyWorld_mapRange_ok files : mapRange_ok (steadyWorld files).
Proof. intros l m. reflexivity. Qed.

Lemma dom_rowABC : dom rowABC = ({["a"; "b"; "c"]} : gset string).
Proof.
  unfold rowABC. rewrite !dom_insert_L, dom_empty_L.
  apply set_eq. intros x.
  rewrite !elem_of_union, !elem_of_singleton, elem_of_empty. tauto.
Qed.

(** C2 as the specification words it, with the range A1:C2, does not
    hold: the row of keys a, b and c is written to A1:D2. *)
Lemma updateSheetHead_abc_not_C2 :
  ~ (forall W fileID title (data : Row) s,
        mapRange_ok W ->
        dom data = {["a"; "b"; "c"]} ->
        exists ks,
          ks ≡ₚ ["a"; "b"; "c"] /\
          sent (updateSheetHead W fileID title "D" data) s =
            [SheetsValuesUpdate fileID "A1:C2"
               (mkValueRange [[IString "D"]; map IString ks]) "RAW"]).
Proof.
  intros Hclaim.
  destruct (Hclaim (steadyWorld []) "file" "t" rowABC fresh
              (steadyWorld_mapRange_ok []) dom_rowABC)
    as (ks & _ & Hsent).
  destruct (updateSheetHead_abc_sent (steadyWorld []) "file" "t" rowABC fresh
              (steadyWorld_mapRange_ok []) dom_rowABC)
    as [_ Hcode].
  rewrite Hcode in Hsent. discriminate Hsent.
Qed.

Lemma updateSheetHead_abc_witness :
  mapRange_ok (steadyWorld []) /\
  dom rowABC = ({["a"; "b"; "c"]} : gset string) /\
  exists ks,
    ks ≡ₚ ["a"; "b"; "c"] /\
    sent (updateSheetHead (steadyWorld []) "file" "t" "D" rowABC) fresh =
      [SheetsValuesUpdate "file" "A1:D2"
         (mkValueRange [[IString "D"]; map IString ks]) "RAW"].
Proof.
  split; [apply steadyWorld_mapRange_ok|].
  split; [apply dom_rowABC|].
  exact (updateSheetHead_abc (steadyWorld []) "file" "t" rowABC fresh
           (steadyWorld_mapRange_ok []) dom_rowABC).
Defined.

Lemma updateSheetHead_header_witness :
  mapRange_ok (steadyWorld []) /\
  sent (updateSheetHead (steadyWorld []) "file" "t" "D" rowABC) fresh =
    [SheetsValuesUpdate "file"
       (a1Range "A" 1 (columnToLetter (add 1 (Z.of_nat (size rowABC)))) 2)
       (mkValueRange
          [[IString "D"]; map IString (mapRange (steadyWorld []) [] rowABC)])
       "RAW"].
Proof.
  split; [apply steadyWorld_mapRange_ok|].
  exact (proj2 (updateSheetHead_header (steadyWorld []) "t" "D" rowABC
                  "file" fresh (steadyWorld_mapRange_ok []))).
Defined.

Lemma getSheet_ambiguous_witness :
  fst (getSheet (steadyWorld [sheetFile "f1" "t"; sheetFile "f2" "t"])
         "t" "D" rowABC fresh) =
    (None, Some (ErrorString "Got 2 files with name t, expected 1")).
Proof.
  exact (proj1 (getSheet_ambiguous
                  (steadyWorld [sheetFile "f1" "t"; sheetFile "f2" "t"])
                  "t" "D" rowABC fresh
                  (mkFileList [sheetFile "f1" "t"; sheetFile "f2" "t"])
                  eq_refl eq_refl (le_n 2))).
Defined.

Lemma getSheet_find_or_create_witness :
  fst (getSheet (steadyWorld []) "t" "D" rowABC fresh) =
    (Some (mkSpreadsheet "new" "fetch-3"), None) /\
  fst (getSheet (steadyWorld [sheetFile "f1" "t"]) "t" "D" rowABC fresh) =
    (Some (mkSpreadsheet "f1" "fetch-2"), None).
Proof.
  split.
  - exact (proj2 (proj2 (proj2 (proj1
             (getSheet_find_or_create (steadyWorld []) "t" "D" rowABC fresh
                (mkFileList []) eq_refl eq_refl) eq_refl)
             (mkFile "new" "t" "application/vnd.google-apps.spreadsheet"
                ["root"]) eq_refl) eq_refl)
             (mkSpreadsheet "new" "fetch-3") eq_refl).
  - exact (proj2 (proj2 (proj2 (proj2
             (getSheet_find_or_create (steadyWorld [sheetFile "f1" "t"])
                "t" "D" rowABC fresh (mkFileList [sheetFile "f1" "t"])
                eq_refl eq_refl) (sheetFile "f1" "t") eq_refl)) eq_refl)
             (mkSpreadsheet "f1" "fetch-2") eq_refl).
Defined.

(** C6 as the specification words it, for every resolution with no match
    or one match, does not hold: with no match and a create that fails,
    [getSheet] returns after the create, so no header write is sent and
    no handle is returned. *)
Lemma getSheet_find_or_create_not_always :
  ~ (forall W title description (data : Row) s files,
        sheets (drive s) !! title = None ->
        filesListDo W (log s) (listQuery title (folderID (drive s)))
          = inl files ->
        (Files files = [] ->
         count is_DriveFilesCreate
           (sent (getSheet W title description data) s) = 1%nat /\
         count is_SheetsValuesUpdate
           (sent (getSheet W title description data) s) = 1%nat /\
         exists sheet,
           fst (getSheet W title description data s) = (Some sheet, None)) /\
        (forall file0,
            Files files = [file0] ->
            count is_DriveFilesCreate
              (sent (getSheet W title description data) s) = 0%nat /\
            count is_SheetsValuesUpdate
              (sent (getSheet W title description data) s) = 1%nat /\
            exists sheet,
              fst (getSheet W title description data s)
                = (Some sheet, None))).
Proof.
  intros Hclaim.
  destruct (Hclaim
              (scriptedWorld (inl (mkFileList [])) (inr quotaError)
                 (inl tt) (inl sampleSheet))
              "t" "D" rowABC fresh (mkFileList []) eq_refl eq_refl)
    as [Hzero _].
  destruct (Hzero eq_refl) as (_ & Hupdates & _).
  vm_compute in Hupdates. discriminate Hupdates.
Qed.

Lemma getSheet_error_keeps_sheets_witness :
  sheets (drive (snd (getSheet
                        (steadyWorld [sheetFile "f1" "t"; sheetFile "f2" "t"])
                        "t" "D" rowABC fresh))) = ∅.
Proof.
  apply (getSheet_error_keeps_sheets
           (steadyWorld [sheetFile "f1" "t"; sheetFile "f2" "t"])
           "t" "D" rowABC fresh).
  vm_compute. discriminate.
Defined.

Lemma LogRow_delegates_witness :
  mapRange_ok (steadyWorld [sheetFile "f1" "t"]) /\
  fst (LogRow (steadyWorld [sheetFile "f1" "t"]) "t" "D" rowABC fresh) = None.
Proof.
  split; [apply steadyWorld_mapRange_ok|].
  destruct (LogRow_delegates (steadyWorld [sheetFile "f1" "t"])
              "t" "D" rowABC fresh (steadyWorld_mapRange_ok _))
    as (Hres & _ & _ & _).
  rewrite Hres. reflexivity.
Defined.

(** C1, at a failing input: the folder holds one file named t and the
    map of sheets starts empty. The first [getSheet] succeeds and
    leaves the map empty; the second one lists the folder again, writes
    the header again and fetches again, and the handle it returns is
    not the first one. *)
Theorem getSheet_twice_resolves_twice :
  let W := steadyWorld [sheetFile "f1" "t"] in
  let first := getSheet W "t" "D" rowABC fresh in
  let second := getSheet W "t" "D" rowABC (snd first) in
  is_success (fst first) /\
  sheets (drive (snd first)) !! "t" = None /\
  is_success (fst second) /\
  sent (getSheet W "t" "D" rowABC) (snd first) =
    [DriveFilesList (listQuery "t" "root");
     headerCall "f1" "D" (elements (dom rowABC));
     SheetsGet "f1"] /\
  fst (fst first) <> fst (fst second).
Proof.
  cbv zeta. repeat split; try (vm_compute; reflexivity).
  vm_compute. discriminate.
Qed.

(** X2: the same at every input: [getSheet] leaves a title it did not
    find in the map out of the map, so the next call for it lists the
    folder again. *)
Lemma getSheet_miss_stays_miss W title description (data : Row) s :
  sheets (drive s) !! title = None ->
  let s' := snd (getSheet W title description data s) in
  sheets (drive s') !! title = None /\
  exists rest,
    sent (getSheet W title description data) s' =
      DriveFilesList (listQuery title (folderID (drive s))) :: rest.
Proof.
  intros Hmiss s'.
  assert (Hd : drive s' = drive s) by apply getSheet_drive.
  split; [now rewrite Hd|].
  assert (Hmiss' : sheets (drive s') !! title = None) by now rewrite Hd.
  rewrite <- Hd. clearbody s'. clear Hd Hmiss s.
  unfold sent, listQuery. run_getSheet; sent_simpl; eexists; reflexivity.
Qed.

Lemma getSheet_miss_stays_miss_witness :
  sheets (drive (snd (getSheet (steadyWorld []) "t" "D" rowABC fresh)))
    !! "t" = None.
Proof.
  exact (proj1 (getSheet_miss_stays_miss (steadyWorld []) "t" "D" rowABC
                  fresh eq_refl)).
Defined.

Lemma getSheet_hit_witness :
  sent (getSheet (steadyWorld []) "t" "D" rowABC)
    (mkState (mkGDrive "root" {["t" := Some (mkSpreadsheet "f1" "u")]}) [])
  = [].
Proof.
  exact (proj2 (getSheet_hit (steadyWorld []) "t" "D" rowABC
                  (mkState
                     (mkGDrive "root" {["t" := Some (mkSpreadsheet "f1" "u")]})
                     [])
                  (Some (mkSpreadsheet "f1" "u")) eq_refl)).
Defined.

End GdriveFacts.

(** ** More on the column codec *)

Module CodecMore.
Import GoInt GoString Codec Notions GoIntFacts CodecFacts.

Lemma app_nil_r s : s +:+ EmptyString = s.
Proof.
  induction s as [|b s IH]; [reflexivity|]. now rewrite app_String, IH.
Qed.

Lemma snoc_decomp b s :
  exists s' b', String b s = s' +:+ String b' EmptyString.
Proof.
  revert b. induction s as [|c s IH]; intros b.
  - exists EmptyString, b. reflexivity.
  - destruct (IH c) as (s' & b' & Hs). exists (String b s'), b'.
    now rewrite app_String, <- Hs.
Qed.

(** Induction on a string from its last byte. *)
Lemma string_snoc_ind (P : string -> Prop) :
  P EmptyString ->
  (forall s b, P s -> P (s +:+ String b EmptyString)) ->
  forall s, P s.
Proof.
  intros Hnil Hsnoc s.
  remember (String.length s) as n eqn:Hn. revert s Hn.
  induction n as [|n IH]; intros s Hn.
  - destruct s; [exact Hnil | discriminate Hn].
  - destruct s as [|b s]; [discriminate Hn|].
    destruct (snoc_decomp b s) as (s' & b' & Hs). rewrite Hs.
    apply Hsnoc, IH.
    assert (Hl : len (String b s) = len s' + 1).
    { rewrite Hs, len_app. reflexivity. }
    unfold len in Hl. cbn [String.length] in Hn, Hl. lia.
Qed.

Lemma upper_app_inv s1 s2 : upper (s1 +:+ s2) -> upper s1 /\ upper s2.
Proof.
  induction s1 as [|b s1 IH]; [now rewrite app_nil_l|].
  rewrite app_String. cbn [upper]. intros [Hb H]. tauto.
Qed.

Lemma byte_of_int_of_byte b : byte_of (int_of_byte b) = b.
Proof.
  unfold byte_of, int_of_byte. rewrite N2Z.id. apply ascii_N_embedding.
Qed.

(** A label of [k] letters is worth at least [(26^k - 1) / 25] and at
    most [(26^(k+1) - 26) / 25]. *)
Lemma pval_lower s : upper s -> 26 ^ len s <= 25 * pval s + 1.
Proof.
  induction s as [|b s IH]; cbn [upper pval].
  - intros _. change (len EmptyString) with 0. lia.
  - intros [Hb Hs]. specialize (IH Hs). rewrite len_String.
    rewrite Z.pow_add_r by (try apply len_nonneg; lia).
    pose proof (Z.pow_pos_nonneg 26 (len s) ltac:(lia) (len_nonneg s)). nia.
Qed.

Lemma pval_upper s : upper s -> 25 * pval s + 26 <= 26 ^ (len s + 1).
Proof.
  induction s as [|b s IH]; cbn [upper pval].
  - intros _. change (len EmptyString) with 0. lia.
  - intros [Hb Hs]. specialize (IH Hs). rewrite len_String.
    pose proof (len_nonneg s) as Hl.
    rewrite Z.pow_add_r in IH by lia.
    rewrite !Z.pow_add_r by lia.
    change (26 ^ 1) with 26 in *.
    pose proof (Z.pow_pos_nonneg 26 (len s) ltac:(lia) (len_nonneg s)) as Hp.
    set (P := 26 ^ len s) in *.
    assert (Hd : (int_of_byte b - 64) * P <= 26 * P) by nia.
    lia.
Qed.

(** The loop started at the value of a label prepends that label. *)
Lemma columnToLetter_loop_pval s :
  upper s -> pval s <= int_max ->
  forall letter, columnToLetter_loop (pval s) letter = s +:+ letter.
Proof.
  induction s as [|s b IH] using string_snoc_ind; intros Hup Hmax letter.
  - rewrite columnToLetter_loop_eq. reflexivity.
  - apply upper_app_inv in Hup. destruct Hup as [Hs [Hb _]].
    rewrite pval_app in *. cbn [pval] in *.
    change (len (String b EmptyString)) with 1 in *.
    change (len EmptyString) with 0 in *.
    pose proof (pval_nonneg s Hs) as Hv.
    set (d := int_of_byte b - 64) in *.
    assert (Hn : pval s * 26 ^ 1 + (d * 26 ^ 0 + 0) = 26 * pval s + d) by lia.
    rewrite Hn in *. clear Hn.
    rewrite columnToLetter_loop_eq.
    replace (0 <? 26 * pval s + d) with true
      by (symmetry; apply Z.ltb_lt; lia).
    destruct (columnToLetter_body (26 * pval s + d)) as [Ht Hq]; [lia|].
    assert (Hmod : (26 * pval s + d - 1) mod 26 = d - 1).
    { symmetry. apply (Z.mod_unique_pos _ _ (pval s)); lia. }
    assert (Hdiv : (26 * pval s + d - 1) / 26 = pval s).
    { symmetry. apply (Z.div_unique_pos _ _ _ (d - 1)); lia. }
    rewrite Hq, Ht, Hmod, Hdiv, digit_rune by lia.
    replace (d - 1 + 65) with (int_of_byte b) by (unfold d; lia).
    rewrite byte_of_int_of_byte, IH by (assumption || lia).
    now rewrite app_assoc.
Qed.

Lemma columnToLetter_pval s :
  upper s -> pval s <= int_max -> columnToLetter (pval s) = s.
Proof.
  intros Hup Hmax. unfold columnToLetter.
  rewrite columnToLetter_loop_pval by assumption. apply app_nil_r.
Qed.


(** X3: the label of a positive [int] is made of letters A..Z only and
    has between 1 and 14 of them: exactly [k] where
    [26^k <= 25 n + 1 < 26^(k+1)], so one letter up to 26 and two
    letters from 27 to 702. *)
Theorem columnToLetter_shape n :
  0 < n <= int_max ->
  let k := len (columnToLetter n) in
  upper (columnToLetter n) /\
  1 <= k <= 14 /\
  26 ^ k <= 25 * n + 1 < 26 ^ (k + 1) /\
  (k = 1 <-> n <= 26) /\
  (k = 2 <-> 27 <= n <= 702).
Proof.
  intros Hn k.
  destruct (columnToLetter_label n ltac:(lia)) as (Hup & Hv & Hlen).
  pose proof (pval_lower _ Hup) as Hlo. pose proof (pval_upper _ Hup) as Hhi.
  rewrite Hv in Hlo, Hhi. fold k in Hlo, Hhi, Hlen.
  pose proof (len_nonneg (columnToLetter n)) as Hk0. fold k in Hk0.
  assert (Hk1 : 1 <= k).
  { destruct (Z.eq_dec k 0) as [E|E]; [|lia].
    rewrite E in Hhi. change (26 ^ (0 + 1)) with 26 in Hhi. lia. }
  assert (Hmono : forall j, 0 <= j -> j <= k -> 26 ^ j <= 25 * n + 1).
  { intros j Hj0 Hj.
    pose proof (Z.pow_le_mono_r 26 j k ltac:(lia) Hj). lia. }
  assert (Hmono' : forall j, k + 1 <= j -> 25 * n + 26 <= 26 ^ j).
  { intros j Hj.
    pose proof (Z.pow_le_mono_r 26 (k + 1) j ltac:(lia) Hj). lia. }
  repeat split; try assumption; try lia.
  - intros ->. change (26 ^ (1 + 1)) with 676 in Hhi. lia.
  - intros H26. destruct (Z_le_gt_dec 2 k) as [H2|H2]; [|lia].
    specialize (Hmono 2 ltac:(lia) H2). change (26 ^ 2) with 676 in Hmono. lia.
  - rewrite H in Hlo. change (26 ^ 2) with 676 in Hlo. lia.
  - rewrite H in Hhi. change (26 ^ (2 + 1)) with 17576 in Hhi. lia.
  - intros [H27 H702].
    destruct (Z_le_gt_dec 3 k) as [H3|H3].
    + specialize (Hmono 3 ltac:(lia) H3).
      change (26 ^ 3) with 17576 in Hmono. lia.
    + destruct (Z.eq_dec k 1) as [E|E]; [|lia].
      specialize (Hmono' 2 ltac:(lia)). change (26 ^ 2) with 676 in Hmono'.
      lia.
Qed.

Lemma columnToLetter_shape_witness :
  0 < 703 <= int_max /\ 1 <= len (columnToLetter 703) <= 14.
Proof.
  split; [unfold int_max; lia|].
  exact (proj1 (proj2 (columnToLetter_shape 703
                         ltac:(unfold int_max; lia)))).
Defined.

(** X4: two positive [int] columns with the same label are the same
    column. *)
Theorem columnToLetter_injective n m :
  0 < n <= int_max -> 0 < m <= int_max ->
  columnToLetter n = columnToLetter m -> n = m.
Proof.
  intros Hn Hm Heq.
  destruct (columnToLetter_label n ltac:(lia)) as (_ & Hvn & _).
  destruct (columnToLetter_label m ltac:(lia)) as (_ & Hvm & _).
  rewrite Heq in Hvn. congruence.
Qed.

Lemma columnToLetter_injective_witness :
  0 < 27 <= int_max /\
  columnToLetter 27 = columnToLetter (26 + 1) /\
  27 = 26 + 1.
Proof.
  assert (H27 : 0 < 27 <= int_max) by (unfold int_max; lia).
  split; [exact H27|]. split; [reflexivity|].
  exact (columnToLetter_injective 27 (26 + 1) H27 H27 eq_refl).
Defined.

(** X5: the other round trip. For a label of at most 13 letters A..Z,
    [columnToLetter(letterToColumn(label)) == label], and the column is
    positive unless the label is empty. *)
Theorem columnToLetter_letterToColumn (pow26 : Z -> Z) s :
  Pow26_exact pow26 ->
  upper s -> len s <= 13 ->
  columnToLetter (letterToColumn pow26 s) = s /\
  (s <> "" -> 0 < letterToColumn pow26 s <= int_max).
Proof.
  intros Hpow Hup Hlen.
  pose proof (pval_upper s Hup) as Hhi.
  pose proof (pval_lower s Hup) as Hlo.
  pose proof (len_nonneg s) as Hl0.
  pose proof (Z.pow_le_mono_r 26 (len s + 1) 14 ltac:(lia) ltac:(lia)) as Hp.
  change (26 ^ 14) with 64509974703297150976 in Hp.
  assert (Hmax : pval s <= int_max) by (unfold int_max; lia).
  rewrite (letterToColumn_pval pow26 Hpow) by (assumption || lia).
  split; [now apply columnToLetter_pval|].
  intros Hne. split; [|assumption].
  destruct s as [|b s]; [congruence|].
  rewrite len_String in Hlo.
  pose proof (len_nonneg s) as Hl1.
  pose proof (Z.pow_le_mono_r 26 1 (len s + 1) ltac:(lia) ltac:(lia)) as Hq.
  change (26 ^ 1) with 26 in Hq. lia.
Qed.

Lemma columnToLetter_letterToColumn_witness :
  Pow26_exact (fun k => 26 ^ k) /\
  columnToLetter (letterToColumn (fun k => 26 ^ k) "ZZ") = "ZZ".
Proof.
  assert (H : Pow26_exact (fun k => 26 ^ k)) by (intros k _; reflexivity).
  split; [exact H|].
  refine (proj1 (columnToLetter_letterToColumn (fun k => 26 ^ k) "ZZ" H _ _)).
  - vm_compute. repeat split; discriminate.
  - vm_compute. discriminate.
Defined.

(** X6: appending a letter to a label is multiplying the column by 26 and
    adding the letter's rank: for [q >= 0] and [1 <= d <= 26],
    [columnToLetter(26 q + d)] is [columnToLetter(q)] followed by the
    [d]-th letter. *)
Theorem columnToLetter_snoc q d :
  0 <= q -> 1 <= d <= 26 -> 26 * q + d <= int_max ->
  columnToLetter (26 * q + d) =
    columnToLetter q +:+ String (byte_of (64 + d)) EmptyString.
Proof.
  intros Hq Hd Hmax.
  destruct (columnToLetter_label q ltac:(lia)) as (Hup & Hv & _).
  set (s := columnToLetter q +:+ String (byte_of (64 + d)) EmptyString).
  assert (Hs : upper s).
  { apply upper_app; [assumption|]. cbn [upper].
    rewrite int_of_byte_of by lia. lia. }
  assert (Hp : pval s = 26 * q + d).
  { unfold s. rewrite pval_app. cbn [pval].
    rewrite int_of_byte_of, Hv by lia.
    change (len (String (byte_of (64 + d)) EmptyString)) with 1.
    change (len EmptyString) with 0. lia. }
  rewrite <- Hp. apply columnToLetter_pval; [assumption | lia].
Qed.

Lemma columnToLetter_snoc_witness :
  columnToLetter (26 * 1 + 2) =
    columnToLetter 1 +:+ String (byte_of (64 + 2)) EmptyString.
Proof.
  apply (columnToLetter_snoc 1 2); unfold int_max; lia.
Defined.

End CodecMore.

(** ** More on the header write and resolution *)

Module GdriveMore.
Import GoInt GoString Codec Api Gdrive Notions Examples MoreExamples.
Import GoIntFacts CodecFacts GdriveFacts.

Section Failures.
Variable W : World.
Variables title description : string.
Variable data : Row.

(** X7: when the listing fails, [getSheet] returns that error with a nil
    handle and has sent the listing only. *)
Theorem getSheet_list_error s err :
  sheets (drive s) !! title = None ->
  filesListDo W (log s) (listQuery title (folderID (drive s))) = inr err ->
  fst (getSheet W title description data s) = (None, Some err) /\
  sent (getSheet W title description data) s =
    [DriveFilesList (listQuery title (folderID (drive s)))].
Proof.
  intros Hmiss Hlist. unfold listQuery in *. unfold sent.
  run_getSheet. sent_simpl. split; reflexivity.
Qed.

(** X8: when nothing is listed and the create fails, [getSheet] returns
    that error and stops: listing and create are all it has sent, there
    is no header write and no fetch. *)
Theorem getSheet_create_error s files err :
  let q := listQuery title (folderID (drive s)) in
  let create := newFile title (folderID (drive s)) in
  sheets (drive s) !! title = None ->
  filesListDo W (log s) q = inl files ->
  Files files = [] ->
  filesCreateDo W (log s ++ [DriveFilesList q]) create = inr err ->
  fst (getSheet W title description data s) = (None, Some err) /\
  sent (getSheet W title description data) s =
    [DriveFilesList q; DriveFilesCreate create].
Proof.
  intros q create Hmiss Hlist Hfiles Hcreate. subst q create.
  unfold listQuery, newFile in *. unfold sent.
  run_getSheet. sent_simpl. split; reflexivity.
Qed.

(** X9: when the header write fails, [getSheet] returns that error
    without fetching, whether the sheet was found or has just been
    created; a sheet just created stays behind, the create having been
    sent. The conditions are on the answers to the requests this call
    sends. *)
Theorem getSheet_header_error s files err :
  let q := listQuery title (folderID (drive s)) in
  let create := newFile title (folderID (drive s)) in
  let run := getSheet W title description data in
  sheets (drive s) !! title = None ->
  filesListDo W (log s) q = inl files ->
  (Files files = [] ->
   forall file,
     filesCreateDo W (log s ++ [DriveFilesList q]) create = inl file ->
     let l2 := (log s ++ [DriveFilesList q; DriveFilesCreate create])%list in
     let ks := mapRange W l2 data in
     headerAnswer W l2 (Id file) description ks = inr err ->
     fst (run s) = (None, Some err) /\
     sent run s =
       [DriveFilesList q; DriveFilesCreate create;
        headerCall (Id file) description ks]) /\
  (forall file0,
      Files files = [file0] ->
      let l1 := (log s ++ [DriveFilesList q])%list in
      let ks := mapRange W l1 data in
      headerAnswer W l1 (Id file0) description ks = inr err ->
      fst (run s) = (None, Some err) /\
      sent run s =
        [DriveFilesList q; headerCall (Id file0) description ks]).
Proof.
  intros q create run Hmiss Hlist. subst q create run.
  unfold listQuery, newFile, headerAnswer in *. cbv zeta.
  split.
  - intros Hfiles file Hcreate Hhdr. split.
    + run_getSheet; flatten_logs; use_answers; congruence.
    + unfold sent. run_getSheet; sent_simpl; flatten_logs;
        use_answers; first [reflexivity | congruence].
  - intros file0 Hfiles Hhdr. split.
    + run_getSheet; flatten_logs; use_answers; congruence.
    + unfold sent. run_getSheet; sent_simpl; flatten_logs;
        use_answers; first [reflexivity | congruence].
Qed.

(** X10: when the fetch fails after a successful header write, the two
    paths differ: after a create [getSheet] returns the error of the
    fetch, for a sheet that existed it returns a nil handle and a nil
    error. The conditions are on the answers to the requests this call
    sends. *)
Theorem getSheet_fetch_error s files err :
  let q := listQuery title (folderID (drive s)) in
  let create := newFile title (folderID (drive s)) in
  let run := getSheet W title description data in
  sheets (drive s) !! title = None ->
  filesListDo W (log s) q = inl files ->
  (Files files = [] ->
   forall file,
     filesCreateDo W (log s ++ [DriveFilesList q]) create = inl file ->
     let l2 := (log s ++ [DriveFilesList q; DriveFilesCreate create])%list in
     let ks := mapRange W l2 data in
     let hdr := headerCall (Id file) description ks in
     headerAnswer W l2 (Id file) description ks = inl tt ->
     spreadsheetsGetDo W (l2 ++ [hdr]) (Id file) = inr err ->
     fst (run s) = (None, Some err)) /\
  (forall file0,
      Files files = [file0] ->
      let l1 := (log s ++ [DriveFilesList q])%list in
      let ks := mapRange W l1 data in
      let hdr := headerCall (Id file0) description ks in
      headerAnswer W l1 (Id file0) description ks = inl tt ->
      spreadsheetsGetDo W (l1 ++ [hdr]) (Id file0) = inr err ->
      fst (run s) = (None, None)).
Proof.
  intros q create run Hmiss Hlist. subst q create run.
  unfold listQuery, newFile, headerAnswer in *. cbv zeta.
  split.
  - intros Hfiles file Hcreate Hhdr Hget.
    run_getSheet; flatten_logs; use_answers; congruence.
  - intros file0 Hfiles Hhdr Hget.
    run_getSheet; flatten_logs; use_answers; congruence.
Qed.

(** X11: whatever the world answers, one call of [getSheet] sends at most
    one listing, one create, one header write and one fetch, and the
    listing comes first whenever anything is sent. *)
Theorem getSheet_request_bounds s :
  let cs := sent (getSheet W title description data) s in
  (count is_DriveFilesList cs <= 1)%nat /\
  (count is_DriveFilesCreate cs <= 1)%nat /\
  (count is_SheetsValuesUpdate cs <= 1)%nat /\
  (count is_SheetsGet cs <= 1)%nat /\
  (cs = [] \/
   exists rest,
     cs = DriveFilesList (listQuery title (folderID (drive s))) :: rest).
Proof.
  cbv zeta. unfold sent, listQuery.
  run_getSheet; sent_simpl; unfold count; cbn;
    repeat split; try lia; (left; reflexivity) || (right; eexists; reflexivity).
Qed.
End Failures.


(** *** The header, once more *)

(** X12: for a row without keys the header write covers A1:A2, the
    description in the first row and an empty second row. *)
Theorem updateSheetHead_empty_row W fileID title description s :
  mapRange_ok W ->
  sent (updateSheetHead W fileID title description ∅) s =
    [SheetsValuesUpdate fileID "A1:A2"
       (mkValueRange [[IString description]; []]) "RAW"].
Proof.
  intros Hrange. rewrite updateSheetHead_sent by assumption.
  assert (Hks : mapRange W (log s) (∅ : Row) = []).
  { apply Permutation_nil_r. rewrite (Hrange (log s) ∅).
    rewrite dom_empty_L, elements_empty. reflexivity. }
  rewrite Hks, map_size_empty. reflexivity.
Qed.

Lemma updateSheetHead_empty_row_witness :
  sent (updateSheetHead (steadyWorld []) "file" "t" "D" ∅) fresh =
    [SheetsValuesUpdate "file" "A1:A2"
       (mkValueRange [[IString "D"]; []]) "RAW"].
Proof.
  exact (updateSheetHead_empty_row (steadyWorld []) "file" "t" "D" fresh
           (steadyWorld_mapRange_ok [])).
Defined.

(** X13: the header depends on the keys of the row only: two rows with
    the same keys get the same range, and second rows that hold the same
    names, whatever the values are. *)
Theorem updateSheetHead_same_keys W fileID title description
    (data1 data2 : Row) s1 s2 :
  mapRange_ok W ->
  dom data1 = dom data2 ->
  exists range ks1 ks2,
    ks1 ≡ₚ ks2 /\
    sent (updateSheetHead W fileID title description data1) s1 =
      [SheetsValuesUpdate fileID range
         (mkValueRange [[IString description]; map IString ks1]) "RAW"] /\
    sent (updateSheetHead W fileID title description data2) s2 =
      [SheetsValuesUpdate fileID range
         (mkValueRange [[IString description]; map IString ks2]) "RAW"].
Proof.
  intros Hrange Hdom.
  eexists _, (mapRange W (log s1) data1), (mapRange W (log s2) data2).
  split; [|split].
  - rewrite (Hrange (log s1) data1), (Hrange (log s2) data2), Hdom.
    reflexivity.
  - apply updateSheetHead_sent. assumption.
  - rewrite updateSheetHead_sent by assumption.
    assert (Hsize : size data2 = size data1)
      by now rewrite <- !size_dom, Hdom.
    now rewrite Hsize.
Qed.

Lemma updateSheetHead_same_keys_witness :
  dom rowABC = dom (<["a" := []]> rowABC) /\
  exists range ks1 ks2,
    ks1 ≡ₚ ks2 /\
    sent (updateSheetHead (steadyWorld []) "file" "t" "D" rowABC) fresh =
      [SheetsValuesUpdate "file" range
         (mkValueRange [[IString "D"]; map IString ks1]) "RAW"] /\
    sent (updateSheetHead (steadyWorld []) "file" "t" "D"
            (<["a" := []]> rowABC)) fresh =
      [SheetsValuesUpdate "file" range
         (mkValueRange [[IString "D"]; map IString ks2]) "RAW"].
Proof.
  assert (Hdom : dom rowABC = dom (<["a" := []]> rowABC)).
  { rewrite dom_insert_L, dom_rowABC. apply set_eq. intros x.
    rewrite !elem_of_union, !elem_of_singleton. tauto. }
  split; [exact Hdom|].
  exact (updateSheetHead_same_keys (steadyWorld []) "file" "t" "D"
           rowABC (<["a" := []]> rowABC) fresh fresh
           (steadyWorld_mapRange_ok []) Hdom).
Defined.

(** X14: the range of the header is one column wider than its row of
    keys: the end column of the range decodes to [k + 1] for a row of
    [k] keys, while the second row holds [k] cells. *)
Theorem updateSheetHead_range_width (pow26 : Z -> Z) W fileID title
    description (data : Row) s :
  Pow26_exact pow26 ->
  mapRange_ok W ->
  Z.of_nat (size data) < int_max ->
  exists column ks,
    sent (updateSheetHead W fileID title description data) s =
      [SheetsValuesUpdate fileID ("A1:" +:+ column +:+ "2")
         (mkValueRange [[IString description]; map IString ks]) "RAW"] /\
    letterToColumn pow26 column = Z.of_nat (size data) + 1 /\
    length ks = size data.
Proof.
  intros Hpow Hrange Hsize.
  exists (columnToLetter (add 1 (Z.of_nat (size data)))),
    (mapRange W (log s) data).
  split; [|split].
  - rewrite updateSheetHead_sent by assumption.
    now rewrite a1Range_header.
  - assert (Hk : 0 <= 1 + Z.of_nat (size data) <= int_max) by lia.
    rewrite add_id by (apply small_is_int; unfold int_max in Hk; lia).
    destruct (columnToLetter_label _ Hk) as (Hup & Hv & Hlen).
    rewrite (letterToColumn_pval pow26 Hpow) by (assumption || lia). lia.
  - rewrite (Hrange (log s) data), <- size_dom. reflexivity.
Qed.

Lemma updateSheetHead_range_width_witness :
  exists column ks,
    sent (updateSheetHead (steadyWorld []) "file" "t" "D" rowABC) fresh =
      [SheetsValuesUpdate "file" ("A1:" +:+ column +:+ "2")
         (mkValueRange [[IString "D"]; map IString ks]) "RAW"] /\
    letterToColumn (fun k => 26 ^ k) column = Z.of_nat (size rowABC) + 1 /\
    length ks = size rowABC.
Proof.
  apply (updateSheetHead_range_width (fun k => 26 ^ k) (steadyWorld [])
           "file" "t" "D" rowABC fresh).
  - intros k _. reflexivity.
  - apply steadyWorld_mapRange_ok.
  - vm_compute. reflexivity.
Defined.

(** *** The failures at sample inputs *)

Lemma getSheet_list_error_witness :
  fst (getSheet (scriptedWorld (inr quotaError) (inr quotaError)
                   (inl tt) (inl sampleSheet))
         "t" "D" rowABC fresh) = (None, Some quotaError).
Proof.
  exact (proj1 (getSheet_list_error
                  (scriptedWorld (inr quotaError) (inr quotaError)
                     (inl tt) (inl sampleSheet))
                  "t" "D" rowABC fresh quotaError eq_refl eq_refl)).
Defined.

Lemma getSheet_create_error_witness :
  fst (getSheet (scriptedWorld (inl (mkFileList [])) (inr quotaError)
                   (inl tt) (inl sampleSheet))
         "t" "D" rowABC fresh) = (None, Some quotaError).
Proof.
  exact (proj1 (getSheet_create_error
                  (scriptedWorld (inl (mkFileList [])) (inr quotaError)
                     (inl tt) (inl sampleSheet))
                  "t" "D" rowABC fresh (mkFileList []) quotaError
                  eq_refl eq_refl eq_refl eq_refl)).
Defined.

Lemma getSheet_header_error_witness :
  fst (getSheet (scriptedWorld (inl (mkFileList []))
                   (inl (sheetFile "new" "t"))
                   (inr quotaError) (inl sampleSheet))
         "t" "D" rowABC fresh) = (None, Some quotaError).
Proof.
  exact (proj1 (proj1 (getSheet_header_error
                   (scriptedWorld (inl (mkFileList []))
                      (inl (sheetFile "new" "t"))
                      (inr quotaError) (inl sampleSheet))
                   "t" "D" rowABC fresh (mkFileList []) quotaError
                   eq_refl eq_refl) eq_refl (sheetFile "new" "t")
                 eq_refl eq_refl)).
Defined.

Lemma getSheet_fetch_error_witness :
  fst (getSheet (scriptedWorld (inl (mkFileList [sheetFile "f1" "t"]))
                   (inl (sheetFile "new" "t"))
                   (inl tt) (inr quotaError))
         "t" "D" rowABC fresh) = (None, None).
Proof.
  exact (proj2 (getSheet_fetch_error
                   (scriptedWorld (inl (mkFileList [sheetFile "f1" "t"]))
                      (inl (sheetFile "new" "t"))
                      (inl tt) (inr quotaError))
                   "t" "D" rowABC fresh (mkFileList [sheetFile "f1" "t"])
                   quotaError eq_refl eq_refl) (sheetFile "f1" "t")
                eq_refl eq_refl eq_refl).
Defined.

End GdriveMore.

(** ** Start-up *)

Module StartupFacts.
Import GoString Api Gdrive Notions Examples Startup MoreExamples.
Import StartupNotions GdriveFacts.

(** Unfold a start-up function down to the answers of the host. *)
Ltac run_startup :=
  unfold Create, getClient, tokenFromFile, getTokenFromWeb, saveToken,
    remote, emit, andThen, done, Fatalf;
  cbn [fst snd];
  repeat match goal with
    | H : ?x = _ |- context [match ?x with _ => _ end] =>
        rewrite H; cbn [fst snd]
    | |- context [match ?x with _ => _ end] =>
        lazymatch x with
        | context [match _ with _ => _ end] => fail
        | _ => destruct x eqn:?; cbn [fst snd]
        end
    end.

Lemma remoteLog_app tr1 tr2 :
  remoteLog (tr1 ++ tr2) = (remoteLog tr1 ++ remoteLog tr2)%list.
Proof. unfold remoteLog. apply omap_app. Qed.

Lemma emitted_app {A} (m : F A) tr es :
  snd (m tr) = (tr ++ es)%list -> emitted m tr = es.
Proof. unfold emitted. intros ->. apply drop_app_length. Qed.

(** The folder the loop of [Create] ends with is the last one listed
    under the reserved name. *)
Lemma pickFolder_last files :
  pickFolder files = last (List.filter is_k8sheets files).
Proof.
  unfold pickFolder, is_k8sheets.
  induction files as [|f files IH] using rev_ind; [reflexivity|].
  rewrite fold_left_app, List.filter_app. cbn [fold_left List.filter].
  destruct (String.eqb (Name f) "k8sheets").
  - now rewrite last_snoc.
  - now rewrite app_nil_r.
Qed.

Section Host.
Variable H : Host.

(** [getClient] talks to the machine and to the authorization server,
    never to the drive or the sheets. *)
Lemma getClient_remoteLog config tr :
  remoteLog (snd (getClient H config tr)) = remoteLog tr.
Proof.
  run_startup; rewrite <- ?List.app_assoc, ?remoteLog_app; cbn;
    now rewrite ?app_nil_r.
Qed.
End Host.


(** Merge two answers to the same question. *)
Ltac same_answers :=
  repeat match goal with
    | E1 : ?x = inl ?a, E2 : ?x = inl ?b |- _ =>
        rewrite E1 in E2; injection E2 as <-
    | E1 : ?x = Some ?a, E2 : ?x = Some ?b |- _ =>
        rewrite E1 in E2; injection E2 as <-
    | E1 : ?x = inl _, E2 : ?x = inr _ |- _ =>
        rewrite E1 in E2; discriminate E2
    | E1 : ?x = Some _, E2 : ?x = None |- _ =>
        rewrite E1 in E2; discriminate E2
    end.

Section StartupClaims.
Variable H : Host.


(** X16: when [token.json] opens and decodes without error, [getClient]
    builds the client from that token; it opens, decodes and closes the
    file and does nothing else: no prompt, no exchange, no write. *)
Theorem getClient_saved_token config tr :
  osOpenDo H tr "token.json" = inl tt ->
  snd (jsonDecodeDo H (tr ++ [OsOpen "token.json"]) "token.json") = None ->
  getClient H config tr =
    (Done (mkClient config
             (Some (fst (jsonDecodeDo H (tr ++ [OsOpen "token.json"])
                           "token.json")))),
     (tr ++ [OsOpen "token.json"; JsonDecode "token.json";
             FileClose "token.json"])%list).
Proof.
  intros Hopen Hdec. run_startup.
  rewrite <- !List.app_assoc. reflexivity.
Qed.


(** X18: when the token file is unusable, the code typed in is read and
    exchanged for a token, and [token.json] then cannot be opened for
    writing, [getClient] ends the process at that open: the token is not
    written anywhere. The conditions are on the answers to the calls
    this run makes. *)
Theorem getClient_cannot_save config tr code tok err :
  let tr1 := snd (tokenFromFile H "token.json" tr) in
  let authURL := authCodeURLDo H config "state-token" [AccessTypeOffline] in
  let tr2 := (tr1 ++ [Printf (promptText authURL)])%list in
  let tr3 :=
    (tr2 ++ [FmtScan; ConfigExchange config code;
             Printf (savingText "token.json")])%list in
  tokenFileFails H tr ->
  fmtScanDo H tr2 = inl code ->
  exchangeDo H (tr2 ++ [FmtScan]) config code = inl tok ->
  osOpenFileDo H tr3 "token.json" [O_RDWR; O_CREATE; O_TRUNC] 384
    = inr err ->
  getClient H config tr =
    (Fatal "Unable to cache oauth token: %v" err,
     (tr3 ++ [OsOpenFile "token.json" [O_RDWR; O_CREATE; O_TRUNC] 384])%list)
  /\
  Forall (fun e => forall name token, e <> JsonEncode name token)
    (emitted (getClient H config) tr).
Proof.
  cbv zeta. unfold emitted, tokenFileFails, promptText, savingText.
  run_startup; intros Herr Hscan Hex Hopen; try contradiction.
  all: repeat match goal with
         | E : context [((_ ++ _) ++ _)%list] |- _ =>
             rewrite <- List.app_assoc in E; cbn [app] in E
         end.
  all: rewrite <- ?List.app_assoc; cbn [app].
  all: simplify_eq.
  all: same_answers.
  all: rewrite ?drop_app_length.
  all: split; [first [reflexivity | congruence]|].
  all: repeat first [apply Forall_nil_2 | apply Forall_cons_2];
    intros name token; discriminate.
Qed.
End StartupClaims.


(** Unfold [Create] around its call of [getClient]. *)
Ltac run_Create H :=
  unfold Create, remote, emit, andThen, done, Fatalf;
  cbn [fst snd];
  repeat match goal with
    | E : ?x = _ |- context [match ?x with _ => _ end] =>
        rewrite E; cbn [fst snd]
    | |- context [match getClient H ?c ?t with _ => _ end] =>
        let Hlog := fresh "Hlog" in
        pose proof (getClient_remoteLog H c t) as Hlog;
        destruct (getClient H c t) as [[?|? ?] ?] eqn:?; cbn [fst snd] in *
    | |- context [match ?x with _ => _ end] =>
        lazymatch x with
        | context [match _ with _ => _ end] => fail
        | _ => destruct x eqn:?; cbn [fst snd]
        end
    end.

(** Bring the remote history of a trace back to that of its start. *)
Ltac norm_remoteLog :=
  repeat (rewrite <- ?List.app_assoc in *; rewrite ?remoteLog_app in *;
          cbn [app] in *);
  cbn [remoteLog omap list_omap] in *;
  rewrite ?app_nil_r in *.

Section CreateClaims.
Variable H : Host.

(** X19: a [Create] that returns has taken as folder the last file listed
    under the name k8sheets, without sending a create; when no file
    listed has that name it has sent one create, for a folder named
    k8sheets, and taken the file created. In both cases the map of
    sheets of the value returned is empty. *)
Theorem Create_folder tr gDrive tr' files :
  Create H tr = (Done gDrive, tr') ->
  filesListDo (services H) (remoteLog tr) folderQuery = inl files ->
  sheets gDrive = ∅ /\
  match last (List.filter is_k8sheets (Files files)) with
  | Some folder =>
      folderID gDrive = Id folder /\
      remoteLog tr' = (remoteLog tr ++ [DriveFilesList folderQuery])%list
  | None =>
      exists folder,
        filesCreateDo (services H)
          (remoteLog tr ++ [DriveFilesList folderQuery]) folderRequest
          = inl folder /\
        folderID gDrive = Id folder /\
        remoteLog tr' =
          (remoteLog tr ++
           [DriveFilesList folderQuery; DriveFilesCreate folderRequest])%list
  end.
Proof.
  unfold folderQuery, folderRequest. rewrite <- pickFolder_last.
  intros Hrun Hlist. revert Hrun.
  run_Create H; intros Hrun; try discriminate Hrun.
  all: injection Hrun as <- <-.
  all: norm_remoteLog.
  all: repeat match goal with
         | E : remoteLog _ = _ |- _ => rewrite E in *
         end.
  all: norm_remoteLog.
  all: same_answers.
  all: split; [reflexivity|].
  - split; reflexivity.
  - eexists. repeat split; [eassumption|..]; reflexivity.
Qed.
End CreateClaims.


Section AfterCreate.
Variable H : Host.

Lemma Create_sheets_empty tr gDrive tr' :
  Create H tr = (Done gDrive, tr') -> sheets gDrive = ∅.
Proof.
  run_Create H; intros Hrun; try discriminate Hrun.
  all: injection Hrun as <- <-; reflexivity.
Qed.

(** X20: after a [Create] that returned, no title is in the map of
    sheets: the first [getSheet] for any title starts by listing the
    files of that name in the folder [Create] took. *)
Theorem Create_then_getSheet tr gDrive tr' title description (data : Row) :
  Create H tr = (Done gDrive, tr') ->
  sheets gDrive !! title = None /\
  exists rest,
    sent (getSheet (services H) title description data) (ready gDrive tr') =
      DriveFilesList (listQuery title (folderID gDrive)) :: rest.
Proof.
  intros Hrun. apply Create_sheets_empty in Hrun.
  assert (Hmiss : sheets gDrive !! title = None).
  { rewrite Hrun. apply lookup_empty. }
  split; [exact Hmiss|].
  change gDrive with (drive (ready gDrive tr')) in Hmiss |- * at 2.
  generalize dependent (ready gDrive tr'). intros s Hmiss.
  unfold sent, listQuery.
  run_getSheet; sent_simpl; eexists; reflexivity.
Qed.

(** X21: whatever happens, [Create] sends the drive at most the listing
    of folders followed by one create of the folder k8sheets, and never
    anything to the sheets. *)
Theorem Create_remote_requests tr :
  exists cs,
    remoteLog (snd (Create H tr)) = (remoteLog tr ++ cs)%list /\
    (cs = [] \/
     cs = [DriveFilesList folderQuery] \/
     cs = [DriveFilesList folderQuery; DriveFilesCreate folderRequest]).
Proof.
  unfold folderQuery, folderRequest.
  run_Create H; norm_remoteLog;
    repeat match goal with
      | E : remoteLog _ = _ |- _ => rewrite E in *
      end;
    norm_remoteLog.
  all: first
         [ exists []; split; [now rewrite app_nil_r | now left]
         | eexists; split; [reflexivity | right; left; reflexivity]
         | eexists; split; [reflexivity | right; right; reflexivity] ].
Qed.
End AfterCreate.

(** *** Start-up at sample inputs *)


Lemma getClient_saved_token_witness :
  getClient (scriptedHost (inl "{}") (inl tt) None (inl tt) (steadyWorld []))
    sampleConfig [] =
    (Done (mkClient sampleConfig (Some savedToken)),
     [OsOpen "token.json"; JsonDecode "token.json"; FileClose "token.json"]).
Proof.
  exact (getClient_saved_token
           (scriptedHost (inl "{}") (inl tt) None (inl tt) (steadyWorld []))
           sampleConfig [] eq_refl eq_refl).
Defined.


Lemma getClient_cannot_save_witness :
  fst (getClient (scriptedHost (inl "{}") (inl tt) (Some quotaError)
                    (inr noSuchFile) (steadyWorld [])) sampleConfig []) =
    Fatal "Unable to cache oauth token: %v" noSuchFile.
Proof.
  exact (f_equal fst
           (proj1 (getClient_cannot_save
                     (scriptedHost (inl "{}") (inl tt) (Some quotaError)
                        (inr noSuchFile) (steadyWorld []))
                     sampleConfig [] "4/code" webToken noSuchFile
                     I eq_refl eq_refl eq_refl))).
Defined.

Lemma Create_folder_witness :
  fst (Create
         (scriptedHost (inl "{}") (inl tt) None (inl tt)
            (steadyWorld [folderFile "a" "k8sheets"; folderFile "b" "other";
                          folderFile "c" "k8sheets"])) []) =
    Done (mkGDrive "c" ∅) /\
  folderID (mkGDrive "c" ∅) = Id (folderFile "c" "k8sheets").
Proof.
  split; [reflexivity|].
  exact (proj1 (proj2 (Create_folder
    (scriptedHost (inl "{}") (inl tt) None (inl tt)
       (steadyWorld [folderFile "a" "k8sheets"; folderFile "b" "other";
                     folderFile "c" "k8sheets"]))
    [] (mkGDrive "c" ∅) _
    (mkFileList [folderFile "a" "k8sheets"; folderFile "b" "other";
                 folderFile "c" "k8sheets"])
    eq_refl eq_refl))).
Defined.

Lemma Create_then_getSheet_witness :
  fst (Create
         (scriptedHost (inl "{}") (inl tt) None (inl tt) (steadyWorld []))
         []) = Done (mkGDrive "new" ∅) /\
  sheets (mkGDrive "new" ∅) !! "t" = None.
Proof.
  split; [reflexivity|].
  exact (proj1 (Create_then_getSheet
    (scriptedHost (inl "{}") (inl tt) None (inl tt) (steadyWorld []))
    [] (mkGDrive "new" ∅) _ "t" "D" rowABC eq_refl)).
Defined.

End StartupFacts.
